(** * infinite-runner: the graphics adapter, the demo loop and the planned core

    A shallow embedding of the C sources of the repository:

    - [src/engine/graphics.h]   the public types and the eleven entry points;
    - [src/engine/graphics.c]   the forwarding layer and [current_backend];
    - [src/platform/raylib_impl.c] and [src/platform/sdl3_impl.c], the two
      backends, each wrapped in its own [#ifdef];
    - [src/main.c]              the demo loop;
    - [build.zig]               which backend file and macro a build gets.

    C [int] values are integers of [Z] (no arithmetic is done on them), C
    [float] coordinates are rationals of [Q] (the sources only copy them and
    convert [int] to [float]), [unsigned char] channels are [Z] in 0..255,
    [const char*] is [string], a pointer is a [Z] with [NULL = 0].  String
    literals are written as in the C text, so an escape such as \n stays two
    characters.  Calls into Raylib and SDL are recorded in a log kept in the
    world state; what the libraries answer is an input of the model.

    The last module, [Core], is not code of the repository: the simulation
    core is only planned there.  It is modelled from the design text. *)

From Stdlib Require Import ZArith QArith Qround Qminmax List String Bool Lia Lqa.
Import ListNotations.

Local Open Scope Z_scope.
Local Open Scope string_scope.

(** ** graphics.h *)

Inductive GraphicsBackend : Type :=
| GRAPHICS_RAYLIB
| GRAPHICS_SDL3.

Record GfxRectangle : Type := mkGfxRectangle {
  rect_x : Q;
  rect_y : Q;
  rect_width : Q;
  rect_height : Q
}.

Record GfxColor : Type := mkGfxColor {
  color_r : Z;
  color_g : Z;
  color_b : Z;
  color_a : Z
}.

Definition COLOR_WHITE : GfxColor := mkGfxColor 255 255 255 255.
Definition COLOR_RED : GfxColor := mkGfxColor 255 0 0 255.
Definition COLOR_GREEN : GfxColor := mkGfxColor 0 255 0 255.
Definition COLOR_BLUE : GfxColor := mkGfxColor 0 0 255 255.
Definition COLOR_GRAY : GfxColor := mkGfxColor 128 128 128 255.

(** A C pointer; only the test against [NULL] matters to the sources. *)
Definition pointer : Type := Z.
Definition NULL : pointer := 0.
Definition is_null (p : pointer) : bool := Z.eqb p NULL.

(** The [extern] declarations at the top of graphics.c: the eleven
    [platform_graphics_*] symbols a backend file has to define.  [world] is
    everything a backend can touch: its statics and the library behind it. *)
Module Platform.

Record Impl : Type := mkImpl {
  world : Type;
  platform_graphics_init : Z -> Z -> string -> world -> world;
  platform_graphics_shutdown : world -> world;
  platform_graphics_should_close : world -> bool * world;
  platform_graphics_begin_frame : world -> world;
  platform_graphics_end_frame : world -> world;
  platform_graphics_clear : GfxColor -> world -> world;
  platform_graphics_draw_rectangle : GfxRectangle -> GfxColor -> world -> world;
  platform_graphics_draw_texture : Z -> GfxRectangle -> GfxColor -> world -> world;
  platform_graphics_draw_text : string -> Z -> Z -> Z -> GfxColor -> world -> world;
  platform_graphics_load_texture : string -> world -> Z * world;
  platform_graphics_unload_texture : Z -> world -> world
}.

End Platform.

(** ** platform/raylib_impl.c *)
Module Raylib.

Record Color : Type := mkColor { r : Z; g : Z; b : Z; a : Z }.
Record Rectangle : Type := mkRectangle { x : Q; y : Q; width : Q; height : Q }.

(** The Raylib entry points the file calls, with their arguments;
    [WindowShouldClose] carries the answer the library gave. *)
Inductive Call : Type :=
| InitWindow (w h : Z) (title : string)
| SetTargetFPS (fps : Z)
| CloseWindow
| WindowShouldClose (answer : bool)
| BeginDrawing
| EndDrawing
| ClearBackground (c : Color)
| DrawRectangleRec (rec : Rectangle) (c : Color)
| DrawText (text : string) (px py size : Z) (c : Color).

(** The file has no statics.  The world is the log of calls made so far
    (oldest first) and the library's answer to [WindowShouldClose], which may
    depend on everything that happened before. *)
Record World : Type := mkWorld {
  calls : list Call;
  window_should_close : list Call -> bool
}.

Definition emit (c : Call) (w : World) : World :=
  mkWorld (calls w ++ [c]) (window_should_close w).

Definition raylib_color_from_gfx_color (color : GfxColor) : Color :=
  mkColor (color_r color) (color_g color) (color_b color) (color_a color).

Definition raylib_rectangle_from_gfx_rectangle (rect : GfxRectangle) : Rectangle :=
  mkRectangle (rect_x rect) (rect_y rect) (rect_width rect) (rect_height rect).

Definition platform_graphics_init (width height : Z) (title : string) (w : World) : World :=
  emit (SetTargetFPS 60) (emit (InitWindow width height title) w).

Definition platform_graphics_shutdown (w : World) : World :=
  emit CloseWindow w.

Definition platform_graphics_should_close (w : World) : bool * World :=
  let answer := window_should_close w (calls w) in
  (answer, emit (WindowShouldClose answer) w).

Definition platform_graphics_begin_frame (w : World) : World :=
  emit BeginDrawing w.

Definition platform_graphics_end_frame (w : World) : World :=
  emit EndDrawing w.

Definition platform_graphics_clear (color : GfxColor) (w : World) : World :=
  emit (ClearBackground (raylib_color_from_gfx_color color)) w.

Definition platform_graphics_draw_rectangle (rect : GfxRectangle) (color : GfxColor)
    (w : World) : World :=
  let raylib_rect := raylib_rectangle_from_gfx_rectangle rect in
  let raylib_color := raylib_color_from_gfx_color color in
  emit (DrawRectangleRec raylib_rect raylib_color) w.

Definition platform_graphics_draw_texture (texture_id : Z) (dest : GfxRectangle)
    (tint : GfxColor) (w : World) : World :=
  w.

Definition platform_graphics_draw_text (text : string) (px py size : Z) (color : GfxColor)
    (w : World) : World :=
  let raylib_color := raylib_color_from_gfx_color color in
  emit (DrawText text px py size raylib_color) w.

Definition platform_graphics_load_texture (filename : string) (w : World) : Z * World :=
  (1, w).

Definition platform_graphics_unload_texture (texture_id : Z) (w : World) : World :=
  w.

Definition impl : Platform.Impl :=
  Platform.mkImpl World
    platform_graphics_init platform_graphics_shutdown platform_graphics_should_close
    platform_graphics_begin_frame platform_graphics_end_frame platform_graphics_clear
    platform_graphics_draw_rectangle platform_graphics_draw_texture
    platform_graphics_draw_text platform_graphics_load_texture
    platform_graphics_unload_texture.

End Raylib.

(** ** platform/sdl3_impl.c *)
Module SDL3.

Inductive InitFlags : Type := SDL_INIT_VIDEO.
Inductive WindowFlags : Type := SDL_WINDOW_RESIZABLE.

Definition SDL_Keycode : Type := Z.
Definition SDLK_ESCAPE : SDL_Keycode := 27.

(** [SDL_Event] is a tagged union; the file looks at [type] and, for a key
    event, at [key.key]. *)
Inductive SDL_Event : Type :=
| SDL_EVENT_QUIT
| SDL_EVENT_KEY_DOWN (key : SDL_Keycode)
| SDL_EVENT_OTHER (type : Z).

Record SDL_FRect : Type := mkFRect { fx : Q; fy : Q; fw : Q; fh : Q }.

(** The SDL entry points the file calls.  A constructor carries the arguments
    and, for a call whose result is used, the answer SDL gave. *)
Inductive Call : Type :=
| Init (flags : InitFlags) (answer : bool)
| GetError (answer : string)
| Log (fmt : string) (arg : string)
| CreateWindow (title : string) (w h : Z) (flags : WindowFlags) (answer : pointer)
| CreateRenderer (win : pointer) (name : pointer) (answer : pointer)
| DestroyRenderer (ren : pointer)
| DestroyWindow (win : pointer)
| Quit
| PollEvent (answer : option SDL_Event)
| RenderPresent (ren : pointer)
| SetRenderDrawColor (ren : pointer) (cr cg cb ca : Z)
| RenderClear (ren : pointer)
| RenderFillRect (ren : pointer) (rect : SDL_FRect)
| RenderDebugText (ren : pointer) (tx ty : Q) (text : string).

(** What SDL answers, as a function of the calls made before. *)
Record Env : Type := mkEnv {
  init_answer : list Call -> bool;
  get_error_answer : list Call -> string;
  create_window_answer : list Call -> pointer;
  create_renderer_answer : list Call -> pointer
}.

(** The three statics of the file, the log of SDL calls (oldest first), the
    events SDL has queued and not yet handed out, and SDL's answers. *)
Record World : Type := mkWorld {
  window : pointer;
  renderer : pointer;
  should_close : bool;
  calls : list Call;
  events : list SDL_Event;
  env : Env
}.

(** The statics as the file initialises them. *)
Definition initial_world (e : Env) (queued : list SDL_Event) : World :=
  mkWorld NULL NULL false [] queued e.

Definition emit (c : Call) (w : World) : World :=
  mkWorld (window w) (renderer w) (should_close w) (calls w ++ [c]) (events w) (env w).

Definition set_window (p : pointer) (w : World) : World :=
  mkWorld p (renderer w) (should_close w) (calls w) (events w) (env w).

Definition set_renderer (p : pointer) (w : World) : World :=
  mkWorld (window w) p (should_close w) (calls w) (events w) (env w).

Definition set_should_close (v : bool) (w : World) : World :=
  mkWorld (window w) (renderer w) v (calls w) (events w) (env w).

Definition set_events (q : list SDL_Event) (w : World) : World :=
  mkWorld (window w) (renderer w) (should_close w) (calls w) q (env w).

(** New events reach SDL's queue between two calls of the program. *)
Definition arrive (evs : list SDL_Event) (w : World) : World :=
  set_events (events w ++ evs) w.

(** *** The library calls *)

Definition SDL_Init (flags : InitFlags) (w : World) : bool * World :=
  let answer := init_answer (env w) (calls w) in
  (answer, emit (Init flags answer) w).

Definition SDL_GetError (w : World) : string * World :=
  let answer := get_error_answer (env w) (calls w) in
  (answer, emit (GetError answer) w).

Definition SDL_Log (fmt arg : string) (w : World) : World :=
  emit (Log fmt arg) w.

Definition SDL_CreateWindow (title : string) (width height : Z) (flags : WindowFlags)
    (w : World) : pointer * World :=
  let answer := create_window_answer (env w) (calls w) in
  (answer, emit (CreateWindow title width height flags answer) w).

Definition SDL_CreateRenderer (win name : pointer) (w : World) : pointer * World :=
  let answer := create_renderer_answer (env w) (calls w) in
  (answer, emit (CreateRenderer win name answer) w).

Definition SDL_PollEvent (w : World) : option SDL_Event * World :=
  match events w with
  | [] => (None, emit (PollEvent None) w)
  | e :: rest => (Some e, emit (PollEvent (Some e)) (set_events rest w))
  end.

(** *** The file's functions *)

Definition log_error (fmt : string) (w : World) : World :=
  let (err, w1) := SDL_GetError w in SDL_Log fmt err w1.

Definition platform_graphics_init (width height : Z) (title : string) (w : World) : World :=
  let (ok, w1) := SDL_Init SDL_INIT_VIDEO w in
  if negb ok then
    log_error "SDL could not initialize! SDL_Error: %s\n" w1
  else
    let (win, w2) := SDL_CreateWindow title width height SDL_WINDOW_RESIZABLE w1 in
    let w3 := set_window win w2 in
    if is_null (window w3) then
      emit Quit (log_error "Window could not be created! SDL_Error: %s\n" w3)
    else
      let (ren, w4) := SDL_CreateRenderer (window w3) NULL w3 in
      let w5 := set_renderer ren w4 in
      if is_null (renderer w5) then
        emit Quit
          (emit (DestroyWindow (window w5))
             (log_error "Renderer could not be created! SDL_Error: %s\n" w5))
      else w5.

Definition platform_graphics_shutdown (w : World) : World :=
  let w1 :=
    if negb (is_null (renderer w))
    then set_renderer NULL (emit (DestroyRenderer (renderer w)) w)
    else w in
  let w2 :=
    if negb (is_null (window w1))
    then set_window NULL (emit (DestroyWindow (window w1)) w1)
    else w1 in
  emit Quit w2.

(** The body of the [while (SDL_PollEvent(&e))] loop. *)
Definition handle_event (e : SDL_Event) (w : World) : World :=
  match e with
  | SDL_EVENT_QUIT => set_should_close true w
  | SDL_EVENT_KEY_DOWN key =>
      if Z.eqb key SDLK_ESCAPE then set_should_close true w else w
  | SDL_EVENT_OTHER _ => w
  end.

(** The loop itself: one [SDL_PollEvent] per iteration, until the queue is
    empty.  [fuel] bounds the iterations; [platform_graphics_should_close]
    gives it one more than the number of queued events, which is what the
    loop needs (see [poll_loop_drains]). *)
Fixpoint poll_loop (fuel : nat) (w : World) : option World :=
  match fuel with
  | O => None
  | S fuel' =>
      match SDL_PollEvent w with
      | (Some e, w1) => poll_loop fuel' (handle_event e w1)
      | (None, w1) => Some w1
      end
  end.

(** What the loop leaves behind, by recursion on the queue. *)
Fixpoint drain (queued : list SDL_Event) (w : World) : World :=
  match queued with
  | [] => emit (PollEvent None) w
  | e :: rest => drain rest (handle_event e (emit (PollEvent (Some e)) (set_events rest w)))
  end.

Definition platform_graphics_should_close (w : World) : bool * World :=
  match poll_loop (S (List.length (events w))) w with
  | Some w1 => (should_close w1, w1)
  | None => (should_close w, w)
  end.

Definition platform_graphics_begin_frame (w : World) : World := w.

Definition platform_graphics_end_frame (w : World) : World :=
  emit (RenderPresent (renderer w)) w.

Definition platform_graphics_clear (color : GfxColor) (w : World) : World :=
  emit (RenderClear (renderer w))
    (emit (SetRenderDrawColor (renderer w)
             (color_r color) (color_g color) (color_b color) (color_a color)) w).

Definition platform_graphics_draw_rectangle (rect : GfxRectangle) (color : GfxColor)
    (w : World) : World :=
  let sdl_rect := mkFRect (rect_x rect) (rect_y rect) (rect_width rect) (rect_height rect) in
  emit (RenderFillRect (renderer w) sdl_rect)
    (emit (SetRenderDrawColor (renderer w)
             (color_r color) (color_g color) (color_b color) (color_a color)) w).

Definition platform_graphics_draw_texture (texture_id : Z) (dest : GfxRectangle)
    (tint : GfxColor) (w : World) : World :=
  w.

Definition platform_graphics_draw_text (text : string) (px py size : Z) (color : GfxColor)
    (w : World) : World :=
  emit (RenderDebugText (renderer w) (inject_Z px) (inject_Z py) text)
    (emit (SetRenderDrawColor (renderer w)
             (color_r color) (color_g color) (color_b color) (color_a color)) w).

Definition platform_graphics_load_texture (filename : string) (w : World) : Z * World :=
  (1, w).

Definition platform_graphics_unload_texture (texture_id : Z) (w : World) : World :=
  w.

Definition impl : Platform.Impl :=
  Platform.mkImpl World
    platform_graphics_init platform_graphics_shutdown platform_graphics_should_close
    platform_graphics_begin_frame platform_graphics_end_frame platform_graphics_clear
    platform_graphics_draw_rectangle platform_graphics_draw_texture
    platform_graphics_draw_text platform_graphics_load_texture
    platform_graphics_unload_texture.

End SDL3.

(** ** engine/graphics.c *)
Module Graphics.

Section Layer.

Variable P : Platform.Impl.

(** The file's one static, [current_backend], next to the world of the
    backend the executable was linked with. *)
Record State : Type := mkState {
  current_backend : GraphicsBackend;
  platform_world : Platform.world P
}.

(** [static GraphicsBackend current_backend = GRAPHICS_RAYLIB;] *)
Definition initial_state (w : Platform.world P) : State :=
  mkState GRAPHICS_RAYLIB w.

Definition set_current_backend (backend : GraphicsBackend) (s : State) : State :=
  mkState backend (platform_world s).

(** Run a [void] platform function on the backend's world. *)
Definition on_platform (f : Platform.world P -> Platform.world P) (s : State) : State :=
  mkState (current_backend s) (f (platform_world s)).

(** Run a platform function that returns a value. *)
Definition on_platform_ret {A : Type} (f : Platform.world P -> A * Platform.world P)
    (s : State) : A * State :=
  let (v, w) := f (platform_world s) in (v, mkState (current_backend s) w).

Definition graphics_init (width height : Z) (title : string) (backend : GraphicsBackend)
    (s : State) : State :=
  let s1 := set_current_backend backend s in
  on_platform (Platform.platform_graphics_init P width height title) s1.

Definition graphics_shutdown (s : State) : State :=
  on_platform (Platform.platform_graphics_shutdown P) s.

Definition graphics_should_close (s : State) : bool * State :=
  on_platform_ret (Platform.platform_graphics_should_close P) s.

Definition graphics_begin_frame (s : State) : State :=
  on_platform (Platform.platform_graphics_begin_frame P) s.

Definition graphics_end_frame (s : State) : State :=
  on_platform (Platform.platform_graphics_end_frame P) s.

Definition graphics_clear (color : GfxColor) (s : State) : State :=
  on_platform (Platform.platform_graphics_clear P color) s.

Definition graphics_draw_rectangle (rect : GfxRectangle) (color : GfxColor) (s : State) : State :=
  on_platform (Platform.platform_graphics_draw_rectangle P rect color) s.

Definition graphics_draw_texture (texture_id : Z) (dest : GfxRectangle) (tint : GfxColor)
    (s : State) : State :=
  on_platform (Platform.platform_graphics_draw_texture P texture_id dest tint) s.

Definition graphics_draw_text (text : string) (px py size : Z) (color : GfxColor)
    (s : State) : State :=
  on_platform (Platform.platform_graphics_draw_text P text px py size color) s.

Definition graphics_load_texture (filename : string) (s : State) : Z * State :=
  on_platform_ret (Platform.platform_graphics_load_texture P filename) s.

Definition graphics_unload_texture (texture_id : Z) (s : State) : State :=
  on_platform (Platform.platform_graphics_unload_texture P texture_id) s.

End Layer.

Arguments current_backend {P} _.
Arguments platform_world {P} _.
Arguments mkState {P} _ _.

(** *** Calls as data

    A call of the public interface, a call of the platform interface, and
    what a call returns; used to quantify over "every operation and every
    argument tuple" and over sequences of calls. *)

Inductive GfxCall : Type :=
| CallInit (width height : Z) (title : string) (backend : GraphicsBackend)
| CallShutdown
| CallShouldClose
| CallBeginFrame
| CallEndFrame
| CallClear (color : GfxColor)
| CallDrawRectangle (rect : GfxRectangle) (color : GfxColor)
| CallDrawTexture (texture_id : Z) (dest : GfxRectangle) (tint : GfxColor)
| CallDrawText (text : string) (px py size : Z) (color : GfxColor)
| CallLoadTexture (filename : string)
| CallUnloadTexture (texture_id : Z).

Inductive PlatformCall : Type :=
| PInit (width height : Z) (title : string)
| PShutdown
| PShouldClose
| PBeginFrame
| PEndFrame
| PClear (color : GfxColor)
| PDrawRectangle (rect : GfxRectangle) (color : GfxColor)
| PDrawTexture (texture_id : Z) (dest : GfxRectangle) (tint : GfxColor)
| PDrawText (text : string) (px py size : Z) (color : GfxColor)
| PLoadTexture (filename : string)
| PUnloadTexture (texture_id : Z).

Inductive Ret : Type :=
| RetVoid
| RetBool (v : bool)
| RetInt (v : Z).

(** The platform function a public function calls, with the arguments it
    passes on. *)
Definition forwarded (c : GfxCall) : PlatformCall :=
  match c with
  | CallInit width height title _ => PInit width height title
  | CallShutdown => PShutdown
  | CallShouldClose => PShouldClose
  | CallBeginFrame => PBeginFrame
  | CallEndFrame => PEndFrame
  | CallClear color => PClear color
  | CallDrawRectangle rect color => PDrawRectangle rect color
  | CallDrawTexture texture_id dest tint => PDrawTexture texture_id dest tint
  | CallDrawText text px py size color => PDrawText text px py size color
  | CallLoadTexture filename => PLoadTexture filename
  | CallUnloadTexture texture_id => PUnloadTexture texture_id
  end.

Definition platform_call (P : Platform.Impl) (c : PlatformCall) (w : Platform.world P)
    : Ret * Platform.world P :=
  match c with
  | PInit width height title => (RetVoid, Platform.platform_graphics_init P width height title w)
  | PShutdown => (RetVoid, Platform.platform_graphics_shutdown P w)
  | PShouldClose =>
      let (v, w1) := Platform.platform_graphics_should_close P w in (RetBool v, w1)
  | PBeginFrame => (RetVoid, Platform.platform_graphics_begin_frame P w)
  | PEndFrame => (RetVoid, Platform.platform_graphics_end_frame P w)
  | PClear color => (RetVoid, Platform.platform_graphics_clear P color w)
  | PDrawRectangle rect color =>
      (RetVoid, Platform.platform_graphics_draw_rectangle P rect color w)
  | PDrawTexture texture_id dest tint =>
      (RetVoid, Platform.platform_graphics_draw_texture P texture_id dest tint w)
  | PDrawText text px py size color =>
      (RetVoid, Platform.platform_graphics_draw_text P text px py size color w)
  | PLoadTexture filename =>
      let (v, w1) := Platform.platform_graphics_load_texture P filename w in (RetInt v, w1)
  | PUnloadTexture texture_id =>
      (RetVoid, Platform.platform_graphics_unload_texture P texture_id w)
  end.

Definition graphics_call (P : Platform.Impl) (c : GfxCall) (s : State P) : Ret * State P :=
  match c with
  | CallInit width height title backend =>
      (RetVoid, graphics_init P width height title backend s)
  | CallShutdown => (RetVoid, graphics_shutdown P s)
  | CallShouldClose => let (v, s1) := graphics_should_close P s in (RetBool v, s1)
  | CallBeginFrame => (RetVoid, graphics_begin_frame P s)
  | CallEndFrame => (RetVoid, graphics_end_frame P s)
  | CallClear color => (RetVoid, graphics_clear P color s)
  | CallDrawRectangle rect color => (RetVoid, graphics_draw_rectangle P rect color s)
  | CallDrawTexture texture_id dest tint =>
      (RetVoid, graphics_draw_texture P texture_id dest tint s)
  | CallDrawText text px py size color =>
      (RetVoid, graphics_draw_text P text px py size color s)
  | CallLoadTexture filename =>
      let (v, s1) := graphics_load_texture P filename s in (RetInt v, s1)
  | CallUnloadTexture texture_id => (RetVoid, graphics_unload_texture P texture_id s)
  end.

(** A sequence of public calls: the values returned, in order, and the
    final state. *)
Fixpoint graphics_calls (P : Platform.Impl) (cs : list GfxCall) (s : State P)
    : list Ret * State P :=
  match cs with
  | [] => ([], s)
  | c :: rest =>
      let (v, s1) := graphics_call P c s in
      let (vs, s2) := graphics_calls P rest s1 in
      (v :: vs, s2)
  end.

(** A sequence of platform calls made directly on a backend. *)
Fixpoint platform_calls (P : Platform.Impl) (cs : list PlatformCall) (w : Platform.world P)
    : list Ret * Platform.world P :=
  match cs with
  | [] => ([], w)
  | c :: rest =>
      let (v, w1) := platform_call P c w in
      let (vs, w2) := platform_calls P rest w1 in
      (v :: vs, w2)
  end.

End Graphics.

(** ** build.zig and the preprocessor *)
Module Build.

(** The two macros the sources test with [#ifdef]. *)
Record Macros : Type := mkMacros {
  GRAPHICS_BACKEND_RAYLIB : bool;
  GRAPHICS_BACKEND_SDL3 : bool
}.

(** The [-Dgraphics=] option of build.zig. *)
Inductive graphics_backend : Type :=
| raylib
| sdl3.

Inductive SourceFile : Type :=
| raylib_impl_c
| sdl3_impl_c.

(** What a backend file defines once preprocessed: the whole file sits
    between [#ifdef] and [#endif], so without its macro it defines nothing. *)
Definition compile (f : SourceFile) (m : Macros) : option Platform.Impl :=
  match f with
  | raylib_impl_c => if GRAPHICS_BACKEND_RAYLIB m then Some Raylib.impl else None
  | sdl3_impl_c => if GRAPHICS_BACKEND_SDL3 m then Some SDL3.impl else None
  end.

(** Linking resolves the [extern] symbols of graphics.c: it needs exactly
    one object that defines them. *)
Definition link (objects : list (option Platform.Impl)) : option Platform.Impl :=
  match List.flat_map (fun o => match o with Some p => [p] | None => [] end) objects with
  | [p] => Some p
  | _ => None
  end.

(** [b.option(...) orelse .raylib] *)
Definition selected (choice : option graphics_backend) : graphics_backend :=
  match choice with
  | Some g => g
  | None => raylib
  end.

(** The [switch (graphics_backend)] of build.zig: the backend file added
    to the executable and the macro defined for it. *)
Definition backend_source (g : graphics_backend) : SourceFile :=
  match g with
  | raylib => raylib_impl_c
  | sdl3 => sdl3_impl_c
  end.

Definition backend_macros (g : graphics_backend) : Macros :=
  match g with
  | raylib => mkMacros true false
  | sdl3 => mkMacros false true
  end.

(** The platform implementation the built executable contains. *)
Definition executable_platform (choice : option graphics_backend) : option Platform.Impl :=
  let g := selected choice in
  link [compile (backend_source g) (backend_macros g)].

End Build.

(** ** main.c *)
Module Main.

Import Graphics.

Section Program.

Variable P : Platform.Impl.

(** What the process has: standard output (the lines printed, oldest
    first) and the graphics layer. *)
Record Process : Type := mkProcess {
  stdout : list string;
  gfx : Graphics.State P
}.

Definition printf (line : string) (p : Process) : Process :=
  mkProcess (stdout p ++ [line]) (gfx p).

Definition with_gfx (f : Graphics.State P -> Graphics.State P) (p : Process) : Process :=
  mkProcess (stdout p) (f (gfx p)).

(** The body of the [while] loop. *)
Definition loop_body (s : Graphics.State P) : Graphics.State P :=
  let s := graphics_begin_frame P s in
  let s := graphics_clear P (mkGfxColor 20 30 80 255) s in
  let s := graphics_draw_rectangle P (mkGfxRectangle 100 100 50 50) COLOR_RED s in
  let s := graphics_draw_rectangle P (mkGfxRectangle 200 150 80 30) COLOR_GREEN s in
  let s := graphics_draw_rectangle P (mkGfxRectangle 350 200 100 100) COLOR_BLUE s in
  let s := graphics_draw_text P "Infinite Runner - Press ESC to close" 10 10 20 COLOR_WHITE s in
  let s := graphics_draw_text P "WASD to test (placeholder)" 10 40 16 COLOR_GRAY s in
  graphics_end_frame P s.

(** [while (!graphics_should_close()) { ... }]; [None] when [fuel]
    iterations were not enough to see the loop end. *)
Fixpoint main_loop (fuel : nat) (s : Graphics.State P) : option (Graphics.State P) :=
  match fuel with
  | O => None
  | S fuel' =>
      let (closing, s1) := graphics_should_close P s in
      if negb closing then main_loop fuel' (loop_body s1) else Some s1
  end.

(** [main]: the exit status and the process it leaves. *)
Definition main (m : Build.Macros) (fuel : nat) (p : Process) : option (Z * Process) :=
  let started :=
    if Build.GRAPHICS_BACKEND_RAYLIB m then
      Some (printf "Running with Raylib backend\n"
              (with_gfx (graphics_init P 800 450 "Infinite Runner - Raylib Backend"
                           GRAPHICS_RAYLIB) p))
    else if Build.GRAPHICS_BACKEND_SDL3 m then
      Some (printf "Running with SDL3 backend\n"
              (with_gfx (graphics_init P 800 450 "Infinite Runner - SDL3 Backend"
                           GRAPHICS_SDL3) p))
    else None in
  match started with
  | None => Some (1, printf "No graphics backend defined!\n" p)
  | Some p1 =>
      match main_loop fuel (gfx p1) with
      | None => None
      | Some s =>
          let p2 := with_gfx (graphics_shutdown P) (mkProcess (stdout p1) s) in
          Some (0, printf "Game closed successfully\n" p2)
      end
  end.

End Program.

Arguments stdout {P} _.
Arguments gfx {P} _.
Arguments mkProcess {P} _ _.


(** The line [main] prints after [graphics_init], and the constant it
    passes as [backend]. *)
Definition banner (m : Build.Macros) : string :=
  if Build.GRAPHICS_BACKEND_RAYLIB m
  then "Running with Raylib backend\n"
  else "Running with SDL3 backend\n".

Definition backend_constant (m : Build.Macros) : GraphicsBackend :=
  if Build.GRAPHICS_BACKEND_RAYLIB m then GRAPHICS_RAYLIB else GRAPHICS_SDL3.

(** The platform calls of one pass through the loop body. *)
Definition frame_calls : list PlatformCall :=
  [ PBeginFrame;
    PClear (mkGfxColor 20 30 80 255);
    PDrawRectangle (mkGfxRectangle 100 100 50 50) (mkGfxColor 255 0 0 255);
    PDrawRectangle (mkGfxRectangle 200 150 80 30) (mkGfxColor 0 255 0 255);
    PDrawRectangle (mkGfxRectangle 350 200 100 100) (mkGfxColor 0 0 255 255);
    PDrawText "Infinite Runner - Press ESC to close" 10 10 20 (mkGfxColor 255 255 255 255);
    PDrawText "WASD to test (placeholder)" 10 40 16 (mkGfxColor 128 128 128 255);
    PEndFrame ].

(** [n] iterations: each one asks [should_close] and then draws a frame. *)
Fixpoint iterations (n : nat) : list PlatformCall :=
  match n with
  | O => []
  | S n' => (PShouldClose :: frame_calls) ++ iterations n'
  end.

(** The answer of the loop test that follows [k] passes. *)
Definition closing_after (P : Platform.Impl) (k : nat) (w : Platform.world P) : bool :=
  fst (Platform.platform_graphics_should_close P (snd (platform_calls P (iterations k) w))).

End Main.

(** ** The simulation core

    The repository has no physics, player, difficulty or collision code:
    README.md lists the game mechanics as still to do and build.zig compiles
    main.c and graphics.c only.  The definitions of this module follow the
    design text (sections 3, 4.1, 4.2 and 4.3) and nothing else.  Numbers
    are exact rationals. *)
Module Core.

Local Open Scope Q_scope.

Record Vector2 : Type := mkVector2 { vec_x : Q; vec_y : Q }.

Inductive PlayerState : Type :=
| RUNNING
| JUMPING
| CROUCHING
| DEAD.

Definition PlayerState_eqb (a b : PlayerState) : bool :=
  match a, b with
  | RUNNING, RUNNING | JUMPING, JUMPING | CROUCHING, CROUCHING | DEAD, DEAD => true
  | _, _ => false
  end.

(** Modelled from the spec: the Player of section 3, whose C struct is
    missing (planned as src/game/player.h). *)
Record Player : Type := mkPlayer {
  position : Vector2;
  velocity : Vector2;
  state : PlayerState;
  isGrounded : bool
}.

(** Modelled from the spec: the per-tick input snapshot of section 6. *)
Record Input : Type := mkInput {
  jumpPressedThisTick : bool;
  crouchHeld : bool;
  restartPressedThisTick : bool
}.

(** *** 4.3 Difficulty scheduler *)

(** Modelled from the spec: [speedMultiplier] of section 4.3, a function
    that is missing from the sources,
    [min(1 + 0.15 * floor(t / 5), 2.5)]. *)
Definition speedMultiplier (t : Q) : Q :=
  Qmin (1 + 0.15 * inject_Z (Qfloor (t / 5))) 2.5.

(** Modelled from the spec: the tier of section 4.3, the number of
    completed 5-second steps; no source file computes it. *)
Definition tier (t : Q) : Z := Qfloor (t / 5).

(** *** 4.1 Physics integrator *)

(** Modelled from the spec: the constants of sections 4.1 and 4.2
    (gravity 800, jump velocity -350, largest step 1/30 s); no source file
    defines them. *)
Definition GRAVITY : Q := 800.
Definition JUMP_VELOCITY : Q := -350.
Definition MAX_STEP : Q := 1 / 30.

(** Modelled from the spec: the clamp of [dt] of section 4.1, missing from
    the sources. *)
Definition clamp_dt (dt : Q) : Q := Qmin dt MAX_STEP.

(** Modelled from the spec: the integration step of section 4.1 (missing
    from the sources; planned as src/game/physics.c) on an already clamped
    [dt]: [velocity.y += gravity * dt], then [position += velocity * dt]
    with the new velocity, then ground contact. *)
Definition integrate_step (body : Player) (dt gravity groundY : Q) : Player :=
  let v1 := mkVector2 (vec_x (velocity body)) (vec_y (velocity body) + gravity * dt) in
  let p1 := mkVector2 (vec_x (position body) + vec_x v1 * dt)
                      (vec_y (position body) + vec_y v1 * dt) in
  if Qle_bool groundY (vec_y p1)
  then mkPlayer (mkVector2 (vec_x p1) groundY) (mkVector2 (vec_x v1) 0) (state body) true
  else mkPlayer p1 v1 (state body) false.

(** Modelled from the spec: [integrate] of section 4.1, missing from the
    sources: clamp [dt], then step. *)
Definition integrate (body : Player) (dt gravity groundY : Q) : Player :=
  integrate_step body (clamp_dt dt) gravity groundY.

(** *** 4.2 Player state machine *)

Definition set_state (s : PlayerState) (p : Player) : Player :=
  mkPlayer (position p) (velocity p) s (isGrounded p).

(** Modelled from the spec: rule 2 of section 4.2, the jump (missing from
    the sources; planned as src/game/player.c). *)
Definition jump (p : Player) : Player :=
  mkPlayer (position p) (mkVector2 (vec_x (velocity p)) JUMP_VELOCITY) JUMPING false.

(** Modelled from the spec: rules 2, 3 and 4 of section 4.2, missing from
    the sources; the first rule whose condition holds is the one applied. *)
Definition handle_input (p : Player) (input : Input) : Player :=
  if jumpPressedThisTick input && isGrounded p && negb (PlayerState_eqb (state p) CROUCHING)
  then jump p
  else if crouchHeld input && isGrounded p && negb (PlayerState_eqb (state p) JUMPING)
  then set_state CROUCHING p
  else if negb (crouchHeld input) && PlayerState_eqb (state p) CROUCHING
  then set_state RUNNING p
  else p.

(** Modelled from the spec: rule 5 of section 4.2, landing, missing from
    the sources: the player was airborne before the integrator ran, is
    grounded after it, and crouch is not held. *)
Definition landing (before after : Player) (input : Input) : Player :=
  if negb (isGrounded before) && isGrounded after && negb (crouchHeld input)
  then set_state RUNNING after
  else after.

(** Modelled from the spec: [update] of section 4.2, missing from the
    sources.  Rule 1 freezes a dead player; otherwise the input rules, the
    integrator and the landing rule run in the order the section lists them,
    and rule 6, the collision signal [hit] of section 4.5, overrides the
    state.  The hitbox of rules 3 and 4 is not part of the Player record and
    is left out. *)
Definition update (p : Player) (input : Input) (dt groundY : Q) (hit : bool) : Player :=
  match state p with
  | DEAD => p
  | _ =>
      let p1 := handle_input p input in
      let p2 := integrate p1 dt GRAVITY groundY in
      let p3 := landing p1 p2 input in
      if hit then set_state DEAD p3 else p3
  end.




(** The same input with the jump request set to [v]. *)
Definition with_jump (v : bool) (input : Input) : Input :=
  mkInput v (crouchHeld input) (restartPressedThisTick input).

(** Equality of players up to the representation of their rationals. *)
Definition Vector2_eq (a b : Vector2) : Prop :=
  vec_x a == vec_x b /\ vec_y a == vec_y b.

Definition Player_eq (p q : Player) : Prop :=
  Vector2_eq (position p) (position q)
  /\ Vector2_eq (velocity p) (velocity q)
  /\ state p = state q
  /\ isGrounded p = isGrounded q.

(** What holds of every reachable player: a grounded player stands on the
    ground line at rest, and a running or crouching player is grounded. *)
Definition on_ground_at_rest (groundY : Q) (p : Player) : Prop :=
  (isGrounded p = true -> vec_y (velocity p) = 0 /\ vec_y (position p) = groundY)
  /\ (state p = RUNNING \/ state p = CROUCHING -> isGrounded p = true).

End Core.

(** ** Runs of the SDL3 backend

    What can happen to the SDL3 world between two calls of
    [platform_graphics_should_close]: the program calls any of the eleven
    platform functions, and events arrive in SDL's queue. *)
Module SDL3Run.




(** The events on which the polling loop sets the flag. *)
Definition closing (e : SDL3.SDL_Event) : bool :=
  match e with
  | SDL3.SDL_EVENT_QUIT => true
  | SDL3.SDL_EVENT_KEY_DOWN key => Z.eqb key SDL3.SDLK_ESCAPE
  | SDL3.SDL_EVENT_OTHER _ => false
  end.

End SDL3Run.

(** ** Concrete runs, used to exercise the statements below *)
Module Scenario.

(** SDL starts up without error. *)
Definition sdl_env : SDL3.Env :=
  SDL3.mkEnv (fun _ => true) (fun _ => "") (fun _ => 1%Z) (fun _ => 2%Z).

(** ESCAPE is in the queue when the program polls for the first time. *)
Definition sdl_world : SDL3.World :=
  SDL3.initial_world sdl_env [SDL3.SDL_EVENT_OTHER 1024; SDL3.SDL_EVENT_KEY_DOWN 27].


(** Raylib reports the window as closing once twenty calls have been made:
    the two of [platform_graphics_init] and two passes of nine each. *)
Definition raylib_process : Main.Process Raylib.impl :=
  Main.mkProcess []
    (Graphics.initial_state Raylib.impl
       (Raylib.mkWorld [] (fun calls => Nat.leb 20 (List.length calls)))).



(** A player in mid-air, moving up, over a ground line at 400. *)
Definition airborne : Core.Player :=
  Core.mkPlayer (Core.mkVector2 0 300) (Core.mkVector2 0 (-100)) Core.JUMPING false.

Definition jump_and_crouch : Core.Input := Core.mkInput true true false.


End Scenario.

(** ** Reading the SDL log *)
Module SDL3Log.



(** The [SDL_PollEvent] calls of one polling loop over a queue. *)
Definition polled (queued : list SDL3.SDL_Event) : list SDL3.Call :=
  (List.map (fun e => SDL3.PollEvent (Some e)) queued ++ [SDL3.PollEvent None])%list.

(** How often a window is destroyed in a log. *)
Definition destroys (win : pointer) (log : list SDL3.Call) : nat :=
  List.length
    (List.filter
       (fun c => match c with SDL3.DestroyWindow p => Z.eqb p win | _ => false end) log).


End SDL3Log.

(** ** platform/web_stubs.h

    The stand-ins for Raylib of the web build.  Every stub but one has an
    empty body; [WindowShouldClose] returns 0 whatever happened before. *)
Module WebStubs.

Definition WindowShouldClose (history : list Raylib.Call) : bool := false.

(** The Raylib backend over the stubs, before any call. *)
Definition world : Raylib.World := Raylib.mkWorld [] WindowShouldClose.

End WebStubs.

(** ** The last [graphics_init] of a call sequence *)
Module GraphicsLog.

(** The [backend] argument of the last [graphics_init] in [cs], or
    [current] when [cs] has none. *)
Fixpoint last_backend (cs : list Graphics.GfxCall) (current : GraphicsBackend)
    : GraphicsBackend :=
  match cs with
  | [] => current
  | Graphics.CallInit _ _ _ backend :: rest => last_backend rest backend
  | _ :: rest => last_backend rest current
  end.

End GraphicsLog.

(** ** main.c, the revision with [NO_STDIO]

    The text of [main] that follows graphics.h in the sources: every
    [printf] sits under [#ifndef NO_STDIO], and the two [graphics_draw_text]
    calls sit under [#ifdef GRAPHICS_BACKEND_RAYLIB]. *)
Module MainRev.

Import Graphics.

Section Program.

Variable P : Platform.Impl.

(** [#ifndef NO_STDIO printf(...); #endif] *)
Definition printf (NO_STDIO : bool) (line : string) (p : Main.Process P) : Main.Process P :=
  if NO_STDIO then p else Main.printf P line p.

Definition loop_body (m : Build.Macros) (s : Graphics.State P) : Graphics.State P :=
  let s := graphics_begin_frame P s in
  let s := graphics_clear P (mkGfxColor 20 30 80 255) s in
  let s := graphics_draw_rectangle P (mkGfxRectangle 100 100 50 50) COLOR_RED s in
  let s := graphics_draw_rectangle P (mkGfxRectangle 200 150 80 30) COLOR_GREEN s in
  let s := graphics_draw_rectangle P (mkGfxRectangle 350 200 100 100) COLOR_BLUE s in
  let s :=
    if Build.GRAPHICS_BACKEND_RAYLIB m then
      let s := graphics_draw_text P "Infinite Runner - Press ESC to close" 10 10 20
                 COLOR_WHITE s in
      graphics_draw_text P "WASD to test (placeholder)" 10 40 16 COLOR_GRAY s
    else s in
  graphics_end_frame P s.

Fixpoint main_loop (m : Build.Macros) (fuel : nat) (s : Graphics.State P)
    : option (Graphics.State P) :=
  match fuel with
  | O => None
  | S fuel' =>
      let (closing, s1) := graphics_should_close P s in
      if negb closing then main_loop m fuel' (loop_body m s1) else Some s1
  end.

Definition main (m : Build.Macros) (NO_STDIO : bool) (fuel : nat) (p : Main.Process P)
    : option (Z * Main.Process P) :=
  let started :=
    if Build.GRAPHICS_BACKEND_RAYLIB m then
      Some (printf NO_STDIO "Running with Raylib backend\n"
              (Main.with_gfx P (graphics_init P 800 450 "Infinite Runner - Raylib Backend"
                                  GRAPHICS_RAYLIB) p))
    else if Build.GRAPHICS_BACKEND_SDL3 m then
      Some (printf NO_STDIO "Running with SDL3 backend\n"
              (Main.with_gfx P (graphics_init P 800 450 "Infinite Runner - SDL3 Backend"
                                  GRAPHICS_SDL3) p))
    else None in
  match started with
  | None => Some (1, printf NO_STDIO "No graphics backend defined!\n" p)
  | Some p1 =>
      match main_loop m fuel (Main.gfx p1) with
      | None => None
      | Some s =>
          let p2 := Main.with_gfx P (graphics_shutdown P) (Main.mkProcess (Main.stdout p1) s) in
          Some (0, printf NO_STDIO "Game closed successfully\n" p2)
      end
  end.

End Program.

(** The platform calls of a pass when the text is compiled out. *)
Definition frame_calls_no_text : list PlatformCall :=
  [ PBeginFrame;
    PClear (mkGfxColor 20 30 80 255);
    PDrawRectangle (mkGfxRectangle 100 100 50 50) (mkGfxColor 255 0 0 255);
    PDrawRectangle (mkGfxRectangle 200 150 80 30) (mkGfxColor 0 255 0 255);
    PDrawRectangle (mkGfxRectangle 350 200 100 100) (mkGfxColor 0 0 255 255);
    PEndFrame ].

End MainRev.

(** ** The WebAssembly loader (class [WasmGameLoader])

    The JavaScript that follows main.c in the sources.  The console is a
    list of entries, oldest first.  [requestAnimationFrame] is the number of
    callbacks waiting for the next frame; every callback the class registers
    is [() => this.gameLoop(exports)].  The two [await]s of [loadWasm] split
    it in the part that runs at once and the part that runs when the fetch and
    the timer are over; other methods may run in between. *)
Module WasmLoader.

Inductive Console : Type :=
| Log (args : list string)
| Error (args : list string).

(** How [fetch] ends: the promise is rejected, or it gives a response with
    its [ok] flag and its status. *)
Inductive Fetched : Type :=
| Rejected (reason : string)
| Response (ok : bool) (status : string).

Record Loader : Type := mkLoader {
  canvas : string;
  wasmModule : option unit;
  isLoaded : bool;
  isRunning : bool;
  console : list Console;
  scheduled : nat
}.

(** [constructor(canvasId)], on a page with an empty console and no
    callback waiting. *)
Definition constructor (canvasId : string) : Loader :=
  mkLoader canvasId None false false [] 0.

Definition say (c : Console) (l : Loader) : Loader :=
  mkLoader (canvas l) (wasmModule l) (isLoaded l) (isRunning l)
    (console l ++ [c]) (scheduled l).

Definition set_isLoaded (v : bool) (l : Loader) : Loader :=
  mkLoader (canvas l) (wasmModule l) v (isRunning l) (console l) (scheduled l).

Definition set_isRunning (v : bool) (l : Loader) : Loader :=
  mkLoader (canvas l) (wasmModule l) (isLoaded l) v (console l) (scheduled l).

Definition set_scheduled (n : nat) (l : Loader) : Loader :=
  mkLoader (canvas l) (wasmModule l) (isLoaded l) (isRunning l) (console l) n.

(** The mock exports of [getExports] that the class calls. *)
Definition game_init : Console := Log ["WASM: game_init called"].
Definition game_update : Console := Log ["WASM: game_update called"].
Definition game_render : Console := Log ["WASM: game_render called"].
Definition game_cleanup : Console := Log ["WASM: game_cleanup called"].

(** [loadWasm] up to its first [await]. *)
Definition loadWasm_begin (wasmPath : string) (l : Loader) : Loader :=
  say (Log ["Loading WASM module from:"; wasmPath]) l.

(** [loadWasm] from the answer of [fetch] on: the value the promise
    resolves to, and the loader. *)
Definition loadWasm_finish (fetched : Fetched) (l : Loader) : bool * Loader :=
  match fetched with
  | Rejected reason =>
      (false, say (Error ["Failed to load WASM module:"; reason]) l)
  | Response false status =>
      (false,
       say (Error ["Failed to load WASM module:";
                   String.append "Error: Failed to fetch WASM: " status]) l)
  | Response true _ =>
      (true, set_isLoaded true (say (Log ["WASM module loaded (simulated)"]) l))
  end.

Definition requestAnimationFrame (l : Loader) : Loader :=
  set_scheduled (S (scheduled l)) l.

Definition gameLoop (l : Loader) : Loader :=
  if negb (isRunning l) then l
  else requestAnimationFrame (say game_render (say game_update l)).

Definition start (l : Loader) : bool * Loader :=
  if negb (isLoaded l) then (false, say (Error ["WASM module not loaded"]) l)
  else
    let l1 := say game_init l in
    let l2 := set_isRunning true l1 in
    (true, gameLoop l2).

Definition stop (l : Loader) : Loader :=
  let l1 := set_isRunning false l in
  match wasmModule l1 with
  | Some _ => say game_cleanup l1
  | None => l1
  end.

(** The browser paints a frame: the callbacks that were waiting run, one
    after the other; what they register waits for the frame after. *)
Definition animation_frame (l : Loader) : Loader :=
  Nat.iter (scheduled l) gameLoop (set_scheduled 0 l).

(** What can happen to a loader, in any order. *)
Inductive Event : Type :=
| LoadBegins (wasmPath : string)
| LoadFinishes (fetched : Fetched)
| Start
| Stop
| Frame.

Definition happen (e : Event) (l : Loader) : Loader :=
  match e with
  | LoadBegins wasmPath => loadWasm_begin wasmPath l
  | LoadFinishes fetched => snd (loadWasm_finish fetched l)
  | Start => snd (start l)
  | Stop => stop l
  | Frame => animation_frame l
  end.

Definition history (es : list Event) (l : Loader) : Loader :=
  List.fold_left (fun acc e => happen e acc) es l.

(** A load that ended well. *)
Definition loaded_by (e : Event) : bool :=
  match e with
  | LoadFinishes (Response true _) => true
  | _ => false
  end.

(** [n] frames in a row. *)
Definition frames (n : nat) (l : Loader) : Loader := Nat.iter n animation_frame l.

(** The console lines of [n] passes of the game loop. *)
Fixpoint passes (n : nat) : list Console :=
  match n with
  | O => []
  | S n' => game_update :: game_render :: passes n'
  end.

(** The loaders on which [stop] has nothing to clean up and whose console
    shows no clean-up. *)
Definition never_cleaned (l : Loader) : Prop :=
  wasmModule l = None /\ ~ List.In game_cleanup (console l).

End WasmLoader.

(** ** Start-ups of the SDL3 backend that go wrong *)
Module Cases.

Definition sdl_error : string := "No available video device".

(** [SDL_Init] fails. *)
Definition no_init : SDL3.World :=
  SDL3.initial_world
    (SDL3.mkEnv (fun _ => false) (fun _ => sdl_error) (fun _ => 1%Z) (fun _ => 2%Z)) [].

(** [SDL_CreateWindow] returns [NULL]. *)
Definition no_window : SDL3.World :=
  SDL3.initial_world
    (SDL3.mkEnv (fun _ => true) (fun _ => sdl_error) (fun _ => NULL) (fun _ => 2%Z)) [].

(** [SDL_CreateRenderer] returns [NULL]; the window has handle 1. *)
Definition no_renderer : SDL3.World :=
  SDL3.initial_world
    (SDL3.mkEnv (fun _ => true) (fun _ => sdl_error) (fun _ => 1%Z) (fun _ => NULL)) [].

End Cases.

(** * Properties *)

(** ** The forwarding layer *)

Section Forwarding.

Variable P : Platform.Impl.

Lemma graphics_call_ret (c : Graphics.GfxCall) (s : Graphics.State P) :
  fst (Graphics.graphics_call P c s)
  = fst (Graphics.platform_call P (Graphics.forwarded c) (Graphics.platform_world s)).
Proof.
  destruct c; cbn; try reflexivity.
  - unfold Graphics.graphics_should_close, Graphics.on_platform_ret.
    destruct (Platform.platform_graphics_should_close P (Graphics.platform_world s)).
    reflexivity.
  - unfold Graphics.graphics_load_texture, Graphics.on_platform_ret.
    destruct (Platform.platform_graphics_load_texture P filename (Graphics.platform_world s)).
    reflexivity.
Qed.

Lemma graphics_call_world (c : Graphics.GfxCall) (s : Graphics.State P) :
  Graphics.platform_world (snd (Graphics.graphics_call P c s))
  = snd (Graphics.platform_call P (Graphics.forwarded c) (Graphics.platform_world s)).
Proof.
  destruct c; cbn; try reflexivity.
  - unfold Graphics.graphics_should_close, Graphics.on_platform_ret.
    destruct (Platform.platform_graphics_should_close P (Graphics.platform_world s)).
    reflexivity.
  - unfold Graphics.graphics_load_texture, Graphics.on_platform_ret.
    destruct (Platform.platform_graphics_load_texture P filename (Graphics.platform_world s)).
    reflexivity.
Qed.

(** Only [graphics_init] writes [current_backend]. *)
Lemma graphics_call_backend (c : Graphics.GfxCall) (s : Graphics.State P) :
  Graphics.current_backend (snd (Graphics.graphics_call P c s))
  = match c with
    | Graphics.CallInit _ _ _ backend => backend
    | _ => Graphics.current_backend s
    end.
Proof.
  destruct c; cbn; try reflexivity.
  - unfold Graphics.graphics_should_close, Graphics.on_platform_ret.
    destruct (Platform.platform_graphics_should_close P (Graphics.platform_world s)).
    reflexivity.
  - unfold Graphics.graphics_load_texture, Graphics.on_platform_ret.
    destruct (Platform.platform_graphics_load_texture P filename (Graphics.platform_world s)).
    reflexivity.
Qed.

(** No public function reads [current_backend]: two states with the same
    backend world answer a call alike and stay alike. *)
Lemma graphics_call_blind (c : Graphics.GfxCall) (s s' : Graphics.State P) :
  Graphics.platform_world s = Graphics.platform_world s' ->
  fst (Graphics.graphics_call P c s) = fst (Graphics.graphics_call P c s')
  /\ Graphics.platform_world (snd (Graphics.graphics_call P c s))
     = Graphics.platform_world (snd (Graphics.graphics_call P c s')).
Proof.
  intros Hw. rewrite !graphics_call_ret, !graphics_call_world, Hw. split; reflexivity.
Qed.

Lemma graphics_calls_blind (cs : list Graphics.GfxCall) :
  forall s s' : Graphics.State P,
    Graphics.platform_world s = Graphics.platform_world s' ->
    fst (Graphics.graphics_calls P cs s) = fst (Graphics.graphics_calls P cs s')
    /\ Graphics.platform_world (snd (Graphics.graphics_calls P cs s))
       = Graphics.platform_world (snd (Graphics.graphics_calls P cs s')).
Proof.
  induction cs as [|c rest IH]; intros s s' Hw; cbn.
  - split; [reflexivity | exact Hw].
  - destruct (graphics_call_blind c s s' Hw) as [Hret Hnext].
    destruct (Graphics.graphics_call P c s) as [v s1].
    destruct (Graphics.graphics_call P c s') as [v' s1'].
    cbn in Hret, Hnext. subst v'.
    destruct (IH s1 s1' Hnext) as [Hrets Hfinal].
    destruct (Graphics.graphics_calls P rest s1) as [vs s2].
    destruct (Graphics.graphics_calls P rest s1') as [vs' s2'].
    cbn in *. subst vs'. split; [reflexivity | exact Hfinal].
Qed.

End Forwarding.

(** C1.  Every public graphics function, on every argument tuple, returns
    what the platform function of the same name returns on the same
    arguments (the [backend] argument of [graphics_init] is not passed on) and
    leaves the backend in the state that platform function leaves it in.
    Which implementation is behind the platform functions is fixed by the
    build: a backend file defines them only under its macro, and build.zig
    adds one backend file together with its macro, Raylib when no option is
    given; under the same macro [main] passes the matching constant to
    [graphics_init]. *)
Theorem graphics_forwards_to_platform :
  (forall (P : Platform.Impl) (c : Graphics.GfxCall) (s : Graphics.State P),
      fst (Graphics.graphics_call P c s)
      = fst (Graphics.platform_call P (Graphics.forwarded c) (Graphics.platform_world s))
      /\ Graphics.platform_world (snd (Graphics.graphics_call P c s))
         = snd (Graphics.platform_call P (Graphics.forwarded c) (Graphics.platform_world s)))
  /\ (forall m : Build.Macros,
         Build.compile Build.raylib_impl_c m
         = (if Build.GRAPHICS_BACKEND_RAYLIB m then Some Raylib.impl else None)
         /\ Build.compile Build.sdl3_impl_c m
            = (if Build.GRAPHICS_BACKEND_SDL3 m then Some SDL3.impl else None))
  /\ Build.executable_platform (Some Build.raylib) = Some Raylib.impl
  /\ Build.executable_platform (Some Build.sdl3) = Some SDL3.impl
  /\ Build.executable_platform None = Some Raylib.impl
  /\ (forall g : Build.graphics_backend,
         Build.link [Build.compile Build.raylib_impl_c (Build.backend_macros g);
                     Build.compile Build.sdl3_impl_c (Build.backend_macros g)]
         = Build.executable_platform (Some g))
  /\ Main.backend_constant (Build.backend_macros Build.raylib) = GRAPHICS_RAYLIB
  /\ Main.backend_constant (Build.backend_macros Build.sdl3) = GRAPHICS_SDL3.
Proof.
  split; [| split; [| repeat split]].
  - intros P c s. split; [apply graphics_call_ret | apply graphics_call_world].
  - intros m. split; reflexivity.
  - intros g. destruct g; reflexivity.
Qed.

(** C3.  [current_backend] starts as [GRAPHICS_RAYLIB], [graphics_init]
    stores its [backend] argument there, no other function writes it, and
    nothing reads it: a call answers the same whatever the variable holds.
    So, with one linked platform, two runs that differ only in the backend
    value given to [graphics_init] return the same values from every later
    call and leave the platform in the same state. *)
Theorem backend_argument_is_dead :
  forall (P : Platform.Impl) (width height : Z) (title : string)
         (b1 b2 : GraphicsBackend) (cs : list Graphics.GfxCall) (s : Graphics.State P),
    (forall w : Platform.world P,
        Graphics.current_backend (Graphics.initial_state P w) = GRAPHICS_RAYLIB)
    /\ Graphics.current_backend (Graphics.graphics_init P width height title b1 s) = b1
    /\ (forall c : Graphics.GfxCall,
           Graphics.current_backend (snd (Graphics.graphics_call P c s))
           = match c with
             | Graphics.CallInit _ _ _ backend => backend
             | _ => Graphics.current_backend s
             end)
    /\ (forall (c : Graphics.GfxCall) (b : GraphicsBackend),
           fst (Graphics.graphics_call P c (Graphics.mkState b (Graphics.platform_world s)))
           = fst (Graphics.graphics_call P c s)
           /\ Graphics.platform_world
                (snd (Graphics.graphics_call P c
                        (Graphics.mkState b (Graphics.platform_world s))))
              = Graphics.platform_world (snd (Graphics.graphics_call P c s)))
    /\ fst (Graphics.graphics_calls P (Graphics.CallInit width height title b1 :: cs) s)
       = fst (Graphics.graphics_calls P (Graphics.CallInit width height title b2 :: cs) s)
    /\ Graphics.platform_world
         (snd (Graphics.graphics_calls P (Graphics.CallInit width height title b1 :: cs) s))
       = Graphics.platform_world
           (snd (Graphics.graphics_calls P (Graphics.CallInit width height title b2 :: cs) s)).
Proof.
  intros P width height title b1 b2 cs s.
  split; [reflexivity | split; [reflexivity | split; [| split]]].
  { intros c. apply graphics_call_backend. }
  { intros c b. apply graphics_call_blind. reflexivity. }
  cbn [Graphics.graphics_calls Graphics.graphics_call].
  pose proof (graphics_calls_blind P cs
                (Graphics.graphics_init P width height title b1 s)
                (Graphics.graphics_init P width height title b2 s) eq_refl) as [Hret Hw].
  destruct (Graphics.graphics_calls P cs (Graphics.graphics_init P width height title b1 s)).
  destruct (Graphics.graphics_calls P cs (Graphics.graphics_init P width height title b2 s)).
  cbn in *. subst. split; [reflexivity | exact Hw].
Qed.

(** ** Textures *)

(** C10.  In both backends [platform_graphics_load_texture] returns 1 for
    every file name and changes nothing, and [platform_graphics_unload_texture]
    and [platform_graphics_draw_texture] change nothing; so the public
    [graphics_load_texture] returns 1 whatever the file name, and the public
    unload and draw leave the graphics state as it was. *)
Theorem textures_are_placeholders :
  (forall (filename : string) (w : Raylib.World),
      Raylib.platform_graphics_load_texture filename w = (1%Z, w))
  /\ (forall (filename : string) (w : SDL3.World),
         SDL3.platform_graphics_load_texture filename w = (1%Z, w))
  /\ (forall (texture_id : Z) (dest : GfxRectangle) (tint : GfxColor) (w : Raylib.World),
         Raylib.platform_graphics_unload_texture texture_id w = w
         /\ Raylib.platform_graphics_draw_texture texture_id dest tint w = w)
  /\ (forall (texture_id : Z) (dest : GfxRectangle) (tint : GfxColor) (w : SDL3.World),
         SDL3.platform_graphics_unload_texture texture_id w = w
         /\ SDL3.platform_graphics_draw_texture texture_id dest tint w = w)
  /\ (forall (filename : string) (texture_id : Z) (dest : GfxRectangle) (tint : GfxColor)
             (s : Graphics.State Raylib.impl),
         Graphics.graphics_load_texture Raylib.impl filename s = (1%Z, s)
         /\ Graphics.graphics_unload_texture Raylib.impl texture_id s = s
         /\ Graphics.graphics_draw_texture Raylib.impl texture_id dest tint s = s)
  /\ (forall (filename : string) (texture_id : Z) (dest : GfxRectangle) (tint : GfxColor)
             (s : Graphics.State SDL3.impl),
         Graphics.graphics_load_texture SDL3.impl filename s = (1%Z, s)
         /\ Graphics.graphics_unload_texture SDL3.impl texture_id s = s
         /\ Graphics.graphics_draw_texture SDL3.impl texture_id dest tint s = s).
Proof.
  repeat split; try reflexivity; destruct s; reflexivity.
Qed.

(** ** The close flag of the SDL3 backend *)

Section CloseFlag.

Import SDL3.

Lemma handle_event_events (e : SDL_Event) (w : World) :
  events (handle_event e w) = events w.
Proof.
  destruct e as [|key|ty]; cbn; try reflexivity.
  destruct (Z.eqb key SDLK_ESCAPE); reflexivity.
Qed.


(** The fuel [platform_graphics_should_close] gives the polling loop is
    enough: the loop ends, having handed out every queued event. *)
Lemma poll_loop_drains (queued : list SDL_Event) :
  forall w : World,
    events w = queued ->
    poll_loop (S (List.length queued)) w = Some (drain queued w).
Proof.
  induction queued as [|e rest IH]; intros w Hq.
  - cbn. unfold SDL_PollEvent. rewrite Hq. reflexivity.
  - cbn [List.length poll_loop]. unfold SDL_PollEvent at 1. rewrite Hq.
    cbn [drain]. apply IH. rewrite handle_event_events. reflexivity.
Qed.







End CloseFlag.



(** ** The demo loop of main.c *)

Section DemoLoop.

Import Graphics Main.
Local Open Scope list_scope.

Variable P : Platform.Impl.

Lemma platform_calls_app (cs1 cs2 : list PlatformCall) :
  forall w : Platform.world P,
    snd (platform_calls P (cs1 ++ cs2) w)
    = snd (platform_calls P cs2 (snd (platform_calls P cs1 w))).
Proof.
  induction cs1 as [|c rest IH]; intros w; cbn [app platform_calls]; [reflexivity |].
  destruct (platform_call P c w) as [v w1].
  specialize (IH w1).
  destruct (platform_calls P (rest ++ cs2) w1) as [vs w2].
  destruct (platform_calls P rest w1) as [vs' w2'].
  cbn [snd] in *. exact IH.
Qed.

(** A pass through the loop body is the eight platform calls of
    [frame_calls], and [current_backend] is left alone. *)
Lemma loop_body_calls (s : State P) :
  loop_body P s
  = mkState (current_backend s) (snd (platform_calls P frame_calls (platform_world s))).
Proof.
  reflexivity.
Qed.

Lemma should_close_call (w : Platform.world P) :
  snd (platform_calls P [PShouldClose] w) = snd (Platform.platform_graphics_should_close P w).
Proof.
  cbn. destruct (Platform.platform_graphics_should_close P w). reflexivity.
Qed.

Lemma iteration_calls (n : nat) (w : Platform.world P) :
  snd (platform_calls P (iterations (S n)) w)
  = snd (platform_calls P (iterations n)
           (snd (platform_calls P frame_calls
                   (snd (Platform.platform_graphics_should_close P w))))).
Proof.
  cbn [iterations].
  change (PShouldClose :: frame_calls) with ([PShouldClose] ++ frame_calls).
  rewrite <- app_assoc, !platform_calls_app, should_close_call. reflexivity.
Qed.


(** Until the answer true has come the loop is still running. *)
Lemma main_loop_running (n : nat) :
  forall (fuel : nat) (s : State P),
    (fuel <= n)%nat ->
    (forall k, (k < n)%nat -> closing_after P k (platform_world s) = false) ->
    main_loop P fuel s = None.
Proof.
  unfold closing_after.
  induction n as [|n IH]; intros fuel s Hfuel Hopen.
  - destruct fuel; [reflexivity | lia].
  - destruct fuel as [|fuel]; [reflexivity |].
    pose proof (Hopen 0%nat ltac:(lia)) as Hfirst.
    cbn [iterations platform_calls snd] in Hfirst.
    cbn [main_loop]. unfold graphics_should_close, on_platform_ret.
    destruct (Platform.platform_graphics_should_close P (platform_world s)) as [c w1] eqn:Hsc.
    cbn [fst snd] in *. subst c. cbn [negb].
    rewrite loop_body_calls. apply IH; [lia |].
    cbn [platform_world]. intros k Hk. specialize (Hopen (S k) ltac:(lia)).
    rewrite iteration_calls, Hsc in Hopen. exact Hopen.
Qed.

End DemoLoop.



(** ** The planned simulation core *)

Section CoreFacts.

Import Core.
Local Open Scope Q_scope.

Lemma fifth (t : Q) : t / 5 == (1 # 5) * t.
Proof.
  unfold Qdiv. change (/ 5) with (1 # 5). ring.
Qed.

Lemma tier_monotone (t1 t2 : Q) : t1 <= t2 -> (tier t1 <= tier t2)%Z.
Proof.
  intros Hle. unfold tier. apply Qfloor_resp_le. rewrite !fifth. lra.
Qed.

Lemma tier_nonneg (t : Q) : 0 <= t -> (0 <= tier t)%Z.
Proof.
  intros Ht. unfold tier. change 0%Z with (Qfloor 0).
  apply Qfloor_resp_le. rewrite fifth. lra.
Qed.

Lemma tier_below_cap (t : Q) : t < 50 -> (tier t <= 9)%Z.
Proof.
  intros Ht. unfold tier.
  assert (Hlt : (Qfloor (t / 5) < 10)%Z).
  { rewrite Zlt_Qlt. apply Qle_lt_trans with (t / 5); [apply Qfloor_le |].
    rewrite fifth. change (inject_Z 10) with 10. lra. }
  lia.
Qed.

Lemma tier_at_cap (t : Q) : 50 <= t -> (10 <= tier t)%Z.
Proof.
  intros Ht. unfold tier. change 10%Z with (Qfloor 10).
  apply Qfloor_resp_le. rewrite fifth. lra.
Qed.

Lemma speedMultiplier_tier (t : Q) :
  speedMultiplier t = Qmin (1 + 0.15 * inject_Z (tier t)) 2.5.
Proof.
  reflexivity.
Qed.

End CoreFacts.

(** C4.  The speed multiplier of the design, [min(1 + 0.15 * floor(t/5),
    2.5)], for elapsed times [0 <= t1 <= t2]: it does not decrease from [t1]
    to [t2], it lies between 1 and 2.5, it is [1 + 0.15 * floor(t1/5)] below
    50 seconds and 2.5 from 50 seconds on, and at 12 seconds it is 1.30. *)
Theorem speed_multiplier_schedule :
  forall t1 t2 : Q,
    (0 <= t1)%Q -> (t1 <= t2)%Q ->
    (Core.speedMultiplier t1 == Qmin (1 + 0.15 * inject_Z (Qfloor (t1 / 5))) 2.5)%Q
    /\ (Core.speedMultiplier t1 <= Core.speedMultiplier t2)%Q
    /\ (1 <= Core.speedMultiplier t1)%Q
    /\ (Core.speedMultiplier t1 <= 2.5)%Q
    /\ ((t1 < 50)%Q ->
        (Core.speedMultiplier t1 == 1 + 0.15 * inject_Z (Qfloor (t1 / 5)))%Q)
    /\ ((50 <= t1)%Q -> (Core.speedMultiplier t1 == 2.5)%Q)
    /\ (Core.speedMultiplier 12 == 1.30)%Q.
Proof.
  intros t1 t2 Hpos Hle.
  pose proof (tier_monotone t1 t2 Hle) as Hmono.
  pose proof (tier_nonneg t1 Hpos) as Hnn.
  rewrite Zle_Qle in Hmono, Hnn. change (inject_Z 0) with 0%Q in Hnn.
  rewrite !speedMultiplier_tier. fold (Core.tier t1).
  split; [reflexivity | split; [| split; [| split; [| split; [| split]]]]].
  - apply Q.min_le_compat_r. lra.
  - apply Q.min_glb; lra.
  - apply Q.le_min_r.
  - intros Hlt. apply Q.min_l.
    pose proof (tier_below_cap t1 Hlt) as H9.
    rewrite Zle_Qle in H9. change (inject_Z 9) with 9%Q in H9. lra.
  - intros Hge. apply Q.min_r.
    pose proof (tier_at_cap t1 Hge) as H10.
    rewrite Zle_Qle in H10. change (inject_Z 10) with 10%Q in H10. lra.
  - reflexivity.
Qed.

(** Twelve seconds into a run, compared with fifty. *)
Lemma speed_multiplier_schedule_witness :
  (Core.speedMultiplier 12 <= Core.speedMultiplier 50)%Q
  /\ (Core.speedMultiplier 12 == 1 + 0.15 * inject_Z (Qfloor (12 / 5)))%Q.
Proof.
  destruct (speed_multiplier_schedule 12 50) as (_ & Hmono & _ & _ & Hbelow & _).
  - unfold Qle. simpl. lia.
  - unfold Qle. simpl. lia.
  - split; [exact Hmono | apply Hbelow; reflexivity].
Defined.

Section PhysicsFacts.

Import Core.
Local Open Scope Q_scope.

Lemma clamp_dt_bounds (dt : Q) :
  clamp_dt dt <= MAX_STEP /\ clamp_dt dt <= dt /\ (clamp_dt dt == dt \/ clamp_dt dt == MAX_STEP).
Proof.
  unfold clamp_dt. split; [apply Q.le_min_r | split; [apply Q.le_min_l |]].
  destruct (Q.min_spec_le dt MAX_STEP) as [[_ H] | [_ H]]; [left | right]; exact H.
Qed.

Lemma clamp_dt_oversize (dt : Q) : MAX_STEP <= dt -> clamp_dt dt == MAX_STEP.
Proof.
  intros H. unfold clamp_dt. apply Q.min_r. exact H.
Qed.

(** The step depends on [dt] as a number, not on how it is written. *)
Lemma integrate_step_compat (body : Player) (d1 d2 gravity groundY : Q) :
  d1 == d2 ->
  Player_eq (integrate_step body d1 gravity groundY) (integrate_step body d2 gravity groundY).
Proof.
  intros Hd. unfold integrate_step. cbn [vec_x vec_y].
  assert (Hy : vec_y (position body) + (vec_y (velocity body) + gravity * d1) * d1
               == vec_y (position body) + (vec_y (velocity body) + gravity * d2) * d2)
    by (rewrite Hd; reflexivity).
  rewrite (Qleb_comp groundY groundY (Qeq_refl groundY) _ _ Hy).
  destruct (Qle_bool groundY _); unfold Player_eq, Vector2_eq; cbn;
    rewrite ?Hd; repeat split; reflexivity.
Qed.

Lemma integrate_step_grounded (body : Player) (d gravity groundY : Q) :
  groundY <= vec_y (position body) + (vec_y (velocity body) + gravity * d) * d ->
  integrate_step body d gravity groundY
  = mkPlayer (mkVector2 (vec_x (position body) + vec_x (velocity body) * d) groundY)
             (mkVector2 (vec_x (velocity body)) 0) (state body) true.
Proof.
  intros H. unfold integrate_step. cbn [vec_x vec_y].
  apply Qle_bool_iff in H. rewrite H. reflexivity.
Qed.

Lemma integrate_step_airborne (body : Player) (d gravity groundY : Q) :
  vec_y (position body) + (vec_y (velocity body) + gravity * d) * d < groundY ->
  integrate_step body d gravity groundY
  = mkPlayer (mkVector2 (vec_x (position body) + vec_x (velocity body) * d)
                        (vec_y (position body) + (vec_y (velocity body) + gravity * d) * d))
             (mkVector2 (vec_x (velocity body)) (vec_y (velocity body) + gravity * d))
             (state body) false.
Proof.
  intros H. unfold integrate_step. cbn [vec_x vec_y].
  destruct (Qle_bool groundY _) eqn:Hb; [| reflexivity].
  apply Qle_bool_iff in Hb. apply Qlt_not_le in H. contradiction.
Qed.

End PhysicsFacts.

(** C5.  The integrator of the design.  With [d] the step [dt] clamped to
    1/30: the vertical velocity first becomes [vy + gravity * d], the position
    then moves by the new velocity times [d]; if the new height is at or below
    the ground line ([y >= groundY], y pointing down) the player is put on the
    line with vertical velocity 0 and grounded, otherwise it keeps the new
    height and velocity and is not grounded.  The clamp is always applied: [d]
    never exceeds 1/30, and every [dt] of 1/30 or more integrates like 1/30. *)
Theorem integrate_semantics :
  forall (body : Core.Player) (dt gravity groundY : Q),
    let d := Core.clamp_dt dt in
    let vy1 := (Core.vec_y (Core.velocity body) + gravity * d)%Q in
    let y1 := (Core.vec_y (Core.position body) + vy1 * d)%Q in
    let body' := Core.integrate body dt gravity groundY in
    ((d <= 1 / 30)%Q /\ (d <= dt)%Q /\ ((d == dt)%Q \/ (d == 1 / 30)%Q))
    /\ Core.vec_x (Core.velocity body') = Core.vec_x (Core.velocity body)
    /\ Core.vec_x (Core.position body')
       = (Core.vec_x (Core.position body) + Core.vec_x (Core.velocity body) * d)%Q
    /\ Core.state body' = Core.state body
    /\ ((groundY <= y1)%Q ->
        Core.vec_y (Core.position body') = groundY
        /\ Core.vec_y (Core.velocity body') = 0%Q
        /\ Core.isGrounded body' = true)
    /\ ((y1 < groundY)%Q ->
        Core.vec_y (Core.position body') = y1
        /\ Core.vec_y (Core.velocity body') = vy1
        /\ Core.isGrounded body' = false)
    /\ (forall dt' : Q,
           (1 / 30 <= dt)%Q -> (1 / 30 <= dt')%Q ->
           Core.Player_eq body' (Core.integrate body dt' gravity groundY)).
Proof.
  intros body dt gravity groundY d vy1 y1 body'.
  split; [apply clamp_dt_bounds |].
  assert (Hcases : (groundY <= y1)%Q \/ (y1 < groundY)%Q)
    by (destruct (Qlt_le_dec y1 groundY); [right | left]; assumption).
  split; [| split; [| split; [| split; [| split]]]].
  - destruct Hcases as [H | H]; subst body'; unfold Core.integrate;
      [rewrite integrate_step_grounded by exact H
      | rewrite integrate_step_airborne by exact H]; reflexivity.
  - destruct Hcases as [H | H]; subst body'; unfold Core.integrate;
      [rewrite integrate_step_grounded by exact H
      | rewrite integrate_step_airborne by exact H]; reflexivity.
  - destruct Hcases as [H | H]; subst body'; unfold Core.integrate;
      [rewrite integrate_step_grounded by exact H
      | rewrite integrate_step_airborne by exact H]; reflexivity.
  - intros H. subst body'. unfold Core.integrate.
    rewrite integrate_step_grounded by exact H. repeat split.
  - intros H. subst body'. unfold Core.integrate.
    rewrite integrate_step_airborne by exact H. repeat split.
  - intros dt' Hbig Hbig'. subst body'. unfold Core.integrate.
    apply integrate_step_compat.
    rewrite (clamp_dt_oversize dt Hbig), (clamp_dt_oversize dt' Hbig'). reflexivity.
Qed.

(** A player in mid-air and a frame that took a whole second: the step
    taken is 1/30 s, the player stays in the air, and a frame of two seconds
    would have given the same. *)
Lemma integrate_semantics_witness :
  Core.isGrounded (Core.integrate Scenario.airborne 1 Core.GRAVITY 400) = false
  /\ Core.vec_y (Core.velocity (Core.integrate Scenario.airborne 1 Core.GRAVITY 400))
     = (-100 + Core.GRAVITY * Core.clamp_dt 1)%Q
  /\ Core.Player_eq (Core.integrate Scenario.airborne 1 Core.GRAVITY 400)
       (Core.integrate Scenario.airborne 2 Core.GRAVITY 400).
Proof.
  destruct (integrate_semantics Scenario.airborne 1 Core.GRAVITY 400)
    as (_ & _ & _ & _ & _ & Hair & Hclamp).
  destruct Hair as (_ & Hv & Hg); [reflexivity |].
  split; [exact Hg | split; [exact Hv |]].
  apply Hclamp; unfold Qle; simpl; lia.
Defined.

Section PlayerFacts.

Import Core.
Local Open Scope Q_scope.

(** An airborne player's input handling does not look at the jump request. *)
Lemma handle_input_airborne (p : Player) (input : Input) (v : bool) :
  isGrounded p = false ->
  handle_input p (with_jump v input) = handle_input p input.
Proof.
  intros Hair. unfold handle_input, with_jump. cbn [jumpPressedThisTick crouchHeld].
  rewrite Hair, !andb_false_r. cbn. reflexivity.
Qed.

Lemma handle_input_velocity_airborne (p : Player) (input : Input) :
  isGrounded p = false -> velocity (handle_input p input) = velocity p.
Proof.
  intros Hair. unfold handle_input. rewrite Hair, !andb_false_r. cbn [andb].
  destruct (negb (crouchHeld input) && PlayerState_eqb (state p) CROUCHING); reflexivity.
Qed.

Lemma landing_with_jump (before after : Player) (input : Input) (v : bool) :
  landing before after (with_jump v input) = landing before after input.
Proof.
  reflexivity.
Qed.

Lemma handle_input_keeps (groundY : Q) (p : Player) (input : Input) :
  on_ground_at_rest groundY p -> on_ground_at_rest groundY (handle_input p input).
Proof.
  intros [Hrest Hstate]. unfold handle_input.
  destruct (jumpPressedThisTick input && isGrounded p
            && negb (PlayerState_eqb (state p) CROUCHING)) eqn:Hjump.
  - split; cbn; [discriminate | intros [H | H]; discriminate H].
  - destruct (crouchHeld input && isGrounded p
              && negb (PlayerState_eqb (state p) JUMPING)) eqn:Hcrouch.
    + apply andb_true_iff in Hcrouch as [Hc _]. apply andb_true_iff in Hc as [_ Hg].
      split; cbn; [exact Hrest | intros _; exact Hg].
    + destruct (negb (crouchHeld input) && PlayerState_eqb (state p) CROUCHING) eqn:Hup.
      * apply andb_true_iff in Hup as [_ Hs].
        assert (Hc : state p = CROUCHING) by (destruct (state p); (reflexivity || discriminate Hs)).
        split; cbn; [exact Hrest | intros _; apply Hstate; right; exact Hc].
      * split; assumption.
Qed.

Lemma integrate_keeps (groundY : Q) (p : Player) (dt : Q) :
  on_ground_at_rest groundY p ->
  on_ground_at_rest groundY (integrate p dt GRAVITY groundY).
Proof.
  intros [Hrest Hstate]. unfold integrate, integrate_step. cbn [vec_x vec_y].
  set (d := clamp_dt dt).
  destruct (Qle_bool groundY _) eqn:Hb.
  - split; cbn; [intros _; split; reflexivity | intros _; reflexivity].
  - split; cbn; [discriminate |].
    intros Hs. destruct (Hrest (Hstate Hs)) as [Hv Hy].
    rewrite Hv, Hy in Hb.
    assert (Hle : Qle_bool groundY (groundY + (0 + GRAVITY * d) * d) = true).
    { apply Qle_bool_iff. unfold GRAVITY. nra. }
    rewrite Hle in Hb. discriminate Hb.
Qed.

Lemma landing_keeps (groundY : Q) (before after : Player) (input : Input) :
  on_ground_at_rest groundY after -> on_ground_at_rest groundY (landing before after input).
Proof.
  intros [Hrest Hstate]. unfold landing.
  destruct (negb (isGrounded before) && isGrounded after && negb (crouchHeld input)) eqn:Hl.
  - apply andb_true_iff in Hl as [Hl _]. apply andb_true_iff in Hl as [_ Hg].
    split; cbn; [exact Hrest | intros _; exact Hg].
  - split; assumption.
Qed.

Lemma dead_keeps (groundY : Q) (p : Player) :
  on_ground_at_rest groundY p -> on_ground_at_rest groundY (set_state DEAD p).
Proof.
  intros [Hrest _]. split; cbn; [exact Hrest | intros [H | H]; discriminate H].
Qed.


Lemma update_keeps (groundY : Q) (p : Player) (input : Input) (dt : Q) (hit : bool) :
  on_ground_at_rest groundY p ->
  on_ground_at_rest groundY (update p input dt groundY hit).
Proof.
  intros Hinv.
  assert (Hlive :
    on_ground_at_rest groundY
      (let p1 := handle_input p input in
       let p2 := integrate p1 dt GRAVITY groundY in
       let p3 := landing p1 p2 input in
       if hit then set_state DEAD p3 else p3)).
  { cbn zeta. destruct hit; [apply dead_keeps |];
      apply landing_keeps, integrate_keeps, handle_input_keeps, Hinv. }
  unfold update. destruct (state p); try exact Hlive. exact Hinv.
Qed.





End PlayerFacts.



(** C7.  No double jump.  For a player that is not grounded, the input
    handling leaves the velocity as it is whatever the input, and a tick with
    the jump request set gives the same player as the tick with the request
    cleared. *)
Theorem no_double_jump :
  forall (p : Core.Player) (input : Core.Input) (dt groundY : Q) (hit : bool),
    Core.isGrounded p = false ->
    Core.velocity (Core.handle_input p (Core.with_jump true input)) = Core.velocity p
    /\ Core.handle_input p (Core.with_jump true input)
       = Core.handle_input p (Core.with_jump false input)
    /\ Core.update p (Core.with_jump true input) dt groundY hit
       = Core.update p (Core.with_jump false input) dt groundY hit.
Proof.
  intros p input dt groundY hit Hair.
  split; [apply handle_input_velocity_airborne, Hair |].
  assert (Hsame : Core.handle_input p (Core.with_jump true input)
                  = Core.handle_input p (Core.with_jump false input))
    by (rewrite !handle_input_airborne by exact Hair; reflexivity).
  split; [exact Hsame |].
  unfold Core.update. rewrite Hsame, !landing_with_jump. reflexivity.
Qed.

(** A jump request in mid-air: the velocity is the one the player had. *)
Lemma no_double_jump_witness :
  Core.velocity (Core.handle_input Scenario.airborne (Core.with_jump true Scenario.jump_and_crouch))
  = Core.mkVector2 0 (-100).
Proof.
  apply (no_double_jump Scenario.airborne Scenario.jump_and_crouch (1 / 60) 400 false).
  reflexivity.
Defined.

(** * Further properties of the sources *)

(** ** sdl3_impl.c: polling *)

Section SDL3Polling.

Import SDL3.
Local Open Scope list_scope.

Lemma handle_event_shape (e : SDL_Event) (w : World) :
  handle_event e w = set_should_close (should_close w || SDL3Run.closing e) w.
Proof.
  destruct w as [win ren sc cs evs en].
  destruct e as [|key|ty]; cbn.
  - now rewrite orb_true_r.
  - destruct (Z.eqb key SDLK_ESCAPE); cbn; [now rewrite orb_true_r | now rewrite orb_false_r].
  - now rewrite orb_false_r.
Qed.

(** The world after the polling loop has run over the queue [queued]. *)
Lemma drain_world (queued : list SDL_Event) :
  forall w : World,
    events w = queued ->
    drain queued w
    = mkWorld (window w) (renderer w)
        (should_close w || List.existsb SDL3Run.closing queued)
        (calls w ++ SDL3Log.polled queued) [] (env w).
Proof.
  unfold SDL3Log.polled.
  induction queued as [|e rest IH]; intros w Hq.
  - cbn. unfold emit. rewrite Hq, orb_false_r. reflexivity.
  - cbn [drain]. rewrite IH by (rewrite handle_event_events; reflexivity).
    rewrite handle_event_shape. cbn.
    rewrite <- app_assoc, orb_assoc. reflexivity.
Qed.

Lemma should_close_world (w : World) :
  platform_graphics_should_close w
  = (should_close w || List.existsb SDL3Run.closing (events w),
     mkWorld (window w) (renderer w)
       (should_close w || List.existsb SDL3Run.closing (events w))
       (calls w ++ SDL3Log.polled (events w)) [] (env w)).
Proof.
  unfold platform_graphics_should_close.
  rewrite (poll_loop_drains (events w) w eq_refl), (drain_world (events w) w eq_refl).
  reflexivity.
Qed.

End SDL3Polling.

(** X1.  [platform_graphics_should_close] of the SDL3 backend hands out
    the whole queue, in order, with one more [SDL_PollEvent] that finds it
    empty; it answers true exactly when the flag was set or one of the queued
    events is a quit or a key-down of ESCAPE; it leaves [window] and
    [renderer] alone.  Asked again at once it polls a single time and gives
    the same answer. *)
Theorem sdl3_should_close_polls_whole_queue :
  forall w : SDL3.World,
    let answer := SDL3.should_close w || List.existsb SDL3Run.closing (SDL3.events w) in
    let w1 := SDL3.mkWorld (SDL3.window w) (SDL3.renderer w) answer
                (SDL3.calls w ++ SDL3Log.polled (SDL3.events w)) [] (SDL3.env w) in
    SDL3.platform_graphics_should_close w = (answer, w1)
    /\ SDL3.platform_graphics_should_close w1
       = (answer,
          SDL3.mkWorld (SDL3.window w) (SDL3.renderer w) answer
            (SDL3.calls w1 ++ [SDL3.PollEvent None]) [] (SDL3.env w)).
Proof.
  intros w answer w1. split.
  - apply should_close_world.
  - rewrite should_close_world. subst w1. cbn. rewrite orb_false_r. reflexivity.
Qed.

(** ** sdl3_impl.c: start-up and shutdown *)

Section SDL3Lifecycle.

Import SDL3.
Local Open Scope list_scope.

Variables (width height : Z) (title : string) (w : World).

(** The log once [SDL_Init] has answered. *)
Let after_init (ok : bool) : list Call := calls w ++ [Init SDL_INIT_VIDEO ok].

Let after_window (win : pointer) : list Call :=
  after_init true ++ [CreateWindow title width height SDL_WINDOW_RESIZABLE win].

Let after_renderer (win ren : pointer) : list Call :=
  after_window win ++ [CreateRenderer win NULL ren].

Lemma init_ok (win ren : pointer) :
  init_answer (env w) (calls w) = true ->
  create_window_answer (env w) (after_init true) = win -> win <> NULL ->
  create_renderer_answer (env w) (after_window win) = ren -> ren <> NULL ->
  platform_graphics_init width height title w
  = mkWorld win ren (should_close w) (after_renderer win ren) (events w) (env w).
Proof.
  subst after_renderer after_window after_init. cbn beta.
  intros Hinit Hwin Hwin0 Hren Hren0.
  unfold platform_graphics_init, SDL_Init. rewrite Hinit. cbn [negb].
  unfold SDL_CreateWindow. cbn [calls env emit]. rewrite Hwin.
  cbn [window set_window emit].
  assert (Hn : is_null win = false) by (apply Z.eqb_neq; exact Hwin0).
  rewrite Hn. unfold SDL_CreateRenderer.
  cbn [calls env emit set_window window renderer should_close events].
  rewrite Hren. cbn [renderer set_renderer emit].
  assert (Hr : is_null ren = false) by (apply Z.eqb_neq; exact Hren0).
  rewrite Hr. unfold set_renderer, emit. cbn. reflexivity.
Qed.

Lemma init_fails_at_init :
  init_answer (env w) (calls w) = false ->
  platform_graphics_init width height title w
  = mkWorld (window w) (renderer w) (should_close w)
      (after_init false
         ++ [GetError (get_error_answer (env w) (after_init false));
             Log "SDL could not initialize! SDL_Error: %s\n"
               (get_error_answer (env w) (after_init false))])
      (events w) (env w).
Proof.
  subst after_init. cbn beta. intros Hinit.
  unfold platform_graphics_init, SDL_Init. rewrite Hinit. cbn [negb].
  unfold log_error, SDL_GetError, SDL_Log, emit. cbn.
  rewrite <- !app_assoc. reflexivity.
Qed.

Lemma init_fails_at_window :
  init_answer (env w) (calls w) = true ->
  create_window_answer (env w) (after_init true) = NULL ->
  platform_graphics_init width height title w
  = mkWorld NULL (renderer w) (should_close w)
      (after_window NULL
         ++ [GetError (get_error_answer (env w) (after_window NULL));
             Log "Window could not be created! SDL_Error: %s\n"
               (get_error_answer (env w) (after_window NULL));
             Quit])
      (events w) (env w).
Proof.
  subst after_window after_init. cbn beta. intros Hinit Hwin.
  unfold platform_graphics_init, SDL_Init. rewrite Hinit. cbn [negb].
  unfold SDL_CreateWindow. cbn [calls env emit]. rewrite Hwin.
  cbn [window set_window emit is_null]. cbn [Z.eqb NULL].
  unfold log_error, SDL_GetError, SDL_Log, emit. cbn.
  rewrite <- !app_assoc. reflexivity.
Qed.

Lemma init_fails_at_renderer (win : pointer) :
  init_answer (env w) (calls w) = true ->
  create_window_answer (env w) (after_init true) = win -> win <> NULL ->
  create_renderer_answer (env w) (after_window win) = NULL ->
  platform_graphics_init width height title w
  = mkWorld win NULL (should_close w)
      (after_renderer win NULL
         ++ [GetError (get_error_answer (env w) (after_renderer win NULL));
             Log "Renderer could not be created! SDL_Error: %s\n"
               (get_error_answer (env w) (after_renderer win NULL));
             DestroyWindow win;
             Quit])
      (events w) (env w).
Proof.
  subst after_renderer after_window after_init. cbn beta.
  intros Hinit Hwin Hwin0 Hren.
  unfold platform_graphics_init, SDL_Init. rewrite Hinit. cbn [negb].
  unfold SDL_CreateWindow. cbn [calls env emit]. rewrite Hwin.
  cbn [window set_window emit].
  assert (Hn : is_null win = false) by (apply Z.eqb_neq; exact Hwin0).
  rewrite Hn. unfold SDL_CreateRenderer.
  cbn [calls env emit set_window window renderer should_close events].
  rewrite Hren. cbn [renderer set_renderer emit is_null]. cbn [Z.eqb NULL].
  unfold log_error, SDL_GetError, SDL_Log, emit. cbn.
  rewrite <- !app_assoc. reflexivity.
Qed.

End SDL3Lifecycle.

Lemma shutdown_world (w : SDL3.World) :
  SDL3.platform_graphics_shutdown w
  = SDL3.mkWorld NULL NULL (SDL3.should_close w)
      (SDL3.calls w
         ++ (if is_null (SDL3.renderer w) then []
             else [SDL3.DestroyRenderer (SDL3.renderer w)])
         ++ (if is_null (SDL3.window w) then []
             else [SDL3.DestroyWindow (SDL3.window w)])
         ++ [SDL3.Quit])%list
      (SDL3.events w) (SDL3.env w).
Proof.
  unfold SDL3.platform_graphics_shutdown.
  destruct w as [win ren sc cs evs en]. cbn [SDL3.renderer SDL3.window].
  destruct (is_null ren) eqn:Hr; cbn [negb];
    cbn [SDL3.window SDL3.set_renderer SDL3.emit SDL3.renderer SDL3.should_close
         SDL3.calls SDL3.events SDL3.env];
    destruct (is_null win) eqn:Hw; cbn [negb]; unfold SDL3.set_window, SDL3.emit; cbn;
    rewrite <- ?app_assoc; cbn;
    try (apply Z.eqb_eq in Hr; unfold NULL in *; subst ren);
    try (apply Z.eqb_eq in Hw; unfold NULL in *; subst win);
    reflexivity.
Qed.

(** X2.  When SDL starts, gives a window and gives a renderer,
    [platform_graphics_init] of the SDL3 backend makes exactly three SDL
    calls ([SDL_Init], [SDL_CreateWindow] with the title and size it was given
    and the resizable flag, [SDL_CreateRenderer] on that window), stores the
    two handles, logs no error, and leaves the close flag and the event queue
    as they were. *)
Theorem sdl3_init_opens_window_and_renderer :
  forall (width height : Z) (title : string) (w : SDL3.World) (win ren : pointer),
    SDL3.init_answer (SDL3.env w) (SDL3.calls w) = true ->
    SDL3.create_window_answer (SDL3.env w)
      (SDL3.calls w ++ [SDL3.Init SDL3.SDL_INIT_VIDEO true]) = win ->
    win <> NULL ->
    SDL3.create_renderer_answer (SDL3.env w)
      ((SDL3.calls w ++ [SDL3.Init SDL3.SDL_INIT_VIDEO true])
         ++ [SDL3.CreateWindow title width height SDL3.SDL_WINDOW_RESIZABLE win]) = ren ->
    ren <> NULL ->
    SDL3.platform_graphics_init width height title w
    = SDL3.mkWorld win ren (SDL3.should_close w)
        (SDL3.calls w
           ++ [SDL3.Init SDL3.SDL_INIT_VIDEO true;
               SDL3.CreateWindow title width height SDL3.SDL_WINDOW_RESIZABLE win;
               SDL3.CreateRenderer win NULL ren])
        (SDL3.events w) (SDL3.env w).
Proof.
  intros width height title w win ren Hinit Hwin Hwin0 Hren Hren0.
  rewrite (init_ok width height title w win ren Hinit Hwin Hwin0 Hren Hren0).
  rewrite <- !app_assoc. reflexivity.
Qed.

(** SDL answers as in [Scenario.sdl_env]: window 1, renderer 2. *)
Lemma sdl3_init_opens_window_and_renderer_witness :
  SDL3.platform_graphics_init 800 450 "Infinite Runner - SDL3 Backend" Scenario.sdl_world
  = SDL3.mkWorld 1 2 false
      [SDL3.Init SDL3.SDL_INIT_VIDEO true;
       SDL3.CreateWindow "Infinite Runner - SDL3 Backend" 800 450 SDL3.SDL_WINDOW_RESIZABLE 1;
       SDL3.CreateRenderer 1 NULL 2]
      [SDL3.SDL_EVENT_OTHER 1024; SDL3.SDL_EVENT_KEY_DOWN 27] Scenario.sdl_env.
Proof.
  apply (sdl3_init_opens_window_and_renderer 800 450 "Infinite Runner - SDL3 Backend"
           Scenario.sdl_world 1 2).
  - reflexivity.
  - reflexivity.
  - discriminate.
  - reflexivity.
  - discriminate.
Defined.

(** X3.  The three ways [platform_graphics_init] of the SDL3 backend
    gives up.  If [SDL_Init] fails it logs the error and returns: no window,
    no renderer, no [SDL_Quit], the statics untouched.  If the window cannot
    be created it logs the error and calls [SDL_Quit]; [window] is [NULL].  If
    the renderer cannot be created it logs the error, destroys the window and
    calls [SDL_Quit]; [renderer] is [NULL] but [window] still holds the handle
    of the destroyed window.  In no case is the caller told. *)
Theorem sdl3_init_failures :
  forall (width height : Z) (title : string) (w : SDL3.World),
    let log0 := (SDL3.calls w ++ [SDL3.Init SDL3.SDL_INIT_VIDEO false])%list in
    let log1 := (SDL3.calls w ++ [SDL3.Init SDL3.SDL_INIT_VIDEO true])%list in
    let log2 win :=
      (log1 ++ [SDL3.CreateWindow title width height SDL3.SDL_WINDOW_RESIZABLE win])%list in
    let log3 win := (log2 win ++ [SDL3.CreateRenderer win NULL NULL])%list in
    let told log fmt :=
      [SDL3.GetError (SDL3.get_error_answer (SDL3.env w) log);
       SDL3.Log fmt (SDL3.get_error_answer (SDL3.env w) log)] in
    (SDL3.init_answer (SDL3.env w) (SDL3.calls w) = false ->
     SDL3.platform_graphics_init width height title w
     = SDL3.mkWorld (SDL3.window w) (SDL3.renderer w) (SDL3.should_close w)
         (log0 ++ told log0 "SDL could not initialize! SDL_Error: %s\n")
         (SDL3.events w) (SDL3.env w))
    /\ (SDL3.init_answer (SDL3.env w) (SDL3.calls w) = true ->
        SDL3.create_window_answer (SDL3.env w) log1 = NULL ->
        SDL3.platform_graphics_init width height title w
        = SDL3.mkWorld NULL (SDL3.renderer w) (SDL3.should_close w)
            (log2 NULL ++ told (log2 NULL) "Window could not be created! SDL_Error: %s\n"
                       ++ [SDL3.Quit])
            (SDL3.events w) (SDL3.env w))
    /\ (forall win : pointer,
           SDL3.init_answer (SDL3.env w) (SDL3.calls w) = true ->
           SDL3.create_window_answer (SDL3.env w) log1 = win -> win <> NULL ->
           SDL3.create_renderer_answer (SDL3.env w) (log2 win) = NULL ->
           SDL3.platform_graphics_init width height title w
           = SDL3.mkWorld win NULL (SDL3.should_close w)
               (log3 win
                  ++ told (log3 win) "Renderer could not be created! SDL_Error: %s\n"
                  ++ [SDL3.DestroyWindow win; SDL3.Quit])
               (SDL3.events w) (SDL3.env w)).
Proof.
  intros width height title w log0 log1 log2 log3 told.
  split; [| split].
  - intros Hinit. apply init_fails_at_init. exact Hinit.
  - intros Hinit Hwin.
    rewrite (init_fails_at_window width height title w Hinit Hwin). reflexivity.
  - intros win Hinit Hwin Hwin0 Hren.
    rewrite (init_fails_at_renderer width height title w win Hinit Hwin Hwin0 Hren).
    reflexivity.
Qed.

(** The three start-ups of [Cases]. *)
Lemma sdl3_init_failures_witness :
  SDL3.calls (SDL3.platform_graphics_init 800 450 "w" Cases.no_init)
  = [SDL3.Init SDL3.SDL_INIT_VIDEO false;
     SDL3.GetError Cases.sdl_error;
     SDL3.Log "SDL could not initialize! SDL_Error: %s\n" Cases.sdl_error]
  /\ SDL3.calls (SDL3.platform_graphics_init 800 450 "w" Cases.no_window)
     = [SDL3.Init SDL3.SDL_INIT_VIDEO true;
        SDL3.CreateWindow "w" 800 450 SDL3.SDL_WINDOW_RESIZABLE NULL;
        SDL3.GetError Cases.sdl_error;
        SDL3.Log "Window could not be created! SDL_Error: %s\n" Cases.sdl_error;
        SDL3.Quit]
  /\ SDL3.window (SDL3.platform_graphics_init 800 450 "w" Cases.no_renderer) = 1%Z.
Proof.
  split; [| split].
  - destruct (sdl3_init_failures 800 450 "w" Cases.no_init) as (H & _ & _).
    rewrite H; reflexivity.
  - destruct (sdl3_init_failures 800 450 "w" Cases.no_window) as (_ & H & _).
    rewrite H; reflexivity.
  - destruct (sdl3_init_failures 800 450 "w" Cases.no_renderer) as (_ & _ & H).
    rewrite (H 1%Z); [reflexivity | reflexivity | reflexivity | discriminate | reflexivity].
Defined.

(** X4.  After a start-up that failed at the renderer, a shutdown destroys
    the window a second time and calls [SDL_Quit] a second time: the failure
    path destroys the window without clearing [window], and
    [platform_graphics_shutdown] destroys whatever [window] holds. *)
Theorem sdl3_failed_renderer_then_shutdown :
  forall (width height : Z) (title : string) (w : SDL3.World) (win : pointer),
    let log1 := (SDL3.calls w ++ [SDL3.Init SDL3.SDL_INIT_VIDEO true])%list in
    let log2 :=
      (log1 ++ [SDL3.CreateWindow title width height SDL3.SDL_WINDOW_RESIZABLE win])%list in
    let log3 := (log2 ++ [SDL3.CreateRenderer win NULL NULL])%list in
    SDL3.init_answer (SDL3.env w) (SDL3.calls w) = true ->
    SDL3.create_window_answer (SDL3.env w) log1 = win ->
    win <> NULL ->
    SDL3.create_renderer_answer (SDL3.env w) log2 = NULL ->
    let w' := SDL3.platform_graphics_shutdown
                (SDL3.platform_graphics_init width height title w) in
    SDL3.calls w'
    = (log3
         ++ [SDL3.GetError (SDL3.get_error_answer (SDL3.env w) log3);
             SDL3.Log "Renderer could not be created! SDL_Error: %s\n"
               (SDL3.get_error_answer (SDL3.env w) log3);
             SDL3.DestroyWindow win; SDL3.Quit;
             SDL3.DestroyWindow win; SDL3.Quit])%list
    /\ SDL3Log.destroys win (SDL3.calls w') = (SDL3Log.destroys win (SDL3.calls w) + 2)%nat
    /\ SDL3.window w' = NULL
    /\ SDL3.renderer w' = NULL.
Proof.
  intros width height title w win log1 log2 log3 Hinit Hwin Hwin0 Hren w'.
  assert (Hn : is_null win = false) by (apply Z.eqb_neq; exact Hwin0).
  assert (Hlog : SDL3.calls w'
    = (log3
         ++ [SDL3.GetError (SDL3.get_error_answer (SDL3.env w) log3);
             SDL3.Log "Renderer could not be created! SDL_Error: %s\n"
               (SDL3.get_error_answer (SDL3.env w) log3);
             SDL3.DestroyWindow win; SDL3.Quit;
             SDL3.DestroyWindow win; SDL3.Quit])%list).
  { subst w'.
    rewrite (init_fails_at_renderer width height title w win Hinit Hwin Hwin0 Hren).
    rewrite shutdown_world. cbn [SDL3.calls SDL3.renderer SDL3.window].
    rewrite Hn. cbn [is_null Z.eqb NULL]. cbn.
    subst log3 log2 log1. rewrite <- !app_assoc. cbn. reflexivity. }
  split; [exact Hlog | split; [| split]].
  - rewrite Hlog. subst log3 log2 log1. unfold SDL3Log.destroys.
    rewrite !List.filter_app, !List.length_app. cbn. rewrite Z.eqb_refl. cbn. lia.
  - subst w'. rewrite shutdown_world. reflexivity.
  - subst w'. rewrite shutdown_world. reflexivity.
Qed.

(** The start-up of [Cases.no_renderer], then a shutdown: window 1 is
    destroyed twice. *)
Lemma sdl3_failed_renderer_then_shutdown_witness :
  SDL3Log.destroys 1
    (SDL3.calls (SDL3.platform_graphics_shutdown
                   (SDL3.platform_graphics_init 800 450 "w" Cases.no_renderer)))
  = 2%nat.
Proof.
  destruct (sdl3_failed_renderer_then_shutdown 800 450 "w" Cases.no_renderer 1)
    as (_ & H & _).
  - reflexivity.
  - reflexivity.
  - discriminate.
  - reflexivity.
  - exact H.
Defined.

(** X5.  [platform_graphics_shutdown] of the SDL3 backend destroys the
    renderer and the window only when their handle is not [NULL], always
    calls [SDL_Quit], and leaves both handles [NULL]; it keeps the close flag
    and the queued events.  A second shutdown therefore only calls [SDL_Quit]
    again. *)
Theorem sdl3_shutdown_clears_handles :
  forall w : SDL3.World,
    SDL3.platform_graphics_shutdown w
    = SDL3.mkWorld NULL NULL (SDL3.should_close w)
        (SDL3.calls w
           ++ (if is_null (SDL3.renderer w) then []
               else [SDL3.DestroyRenderer (SDL3.renderer w)])
           ++ (if is_null (SDL3.window w) then []
               else [SDL3.DestroyWindow (SDL3.window w)])
           ++ [SDL3.Quit])
        (SDL3.events w) (SDL3.env w)
    /\ SDL3.platform_graphics_shutdown (SDL3.platform_graphics_shutdown w)
       = SDL3.emit SDL3.Quit (SDL3.platform_graphics_shutdown w).
Proof.
  intros w. split; [apply shutdown_world |].
  rewrite (shutdown_world (SDL3.platform_graphics_shutdown w)).
  rewrite shutdown_world. reflexivity.
Qed.

(** ** sdl3_impl.c: drawing *)

Section SDL3Drawing.

Import SDL3.
Local Open Scope list_scope.





End SDL3Drawing.



(** ** main.c on the two backends *)

Section MainFacts.

Import Graphics Main.

Lemma main_loop_keeps_backend (P : Platform.Impl) (fuel : nat) :
  forall s s' : State P,
    main_loop P fuel s = Some s' -> current_backend s' = current_backend s.
Proof.
  induction fuel as [|fuel IH]; intros s s' Hrun; [discriminate Hrun |].
  cbn [main_loop] in Hrun. unfold graphics_should_close, on_platform_ret in Hrun.
  destruct (Platform.platform_graphics_should_close P (platform_world s)) as [c w1].
  destruct c; cbn [negb] in Hrun.
  - injection Hrun as <-. reflexivity.
  - apply IH in Hrun. rewrite Hrun. reflexivity.
Qed.

Lemma raylib_call_keeps_oracle (c : PlatformCall) (w : Raylib.World) :
  Raylib.window_should_close (snd (platform_call Raylib.impl c w))
  = Raylib.window_should_close w.
Proof.
  destruct c; reflexivity.
Qed.

Lemma raylib_calls_keep_oracle (cs : list PlatformCall) :
  forall w : Raylib.World,
    Raylib.window_should_close (snd (platform_calls Raylib.impl cs w))
    = Raylib.window_should_close w.
Proof.
  induction cs as [|c rest IH]; intros w; cbn [platform_calls]; [reflexivity |].
  pose proof (raylib_call_keeps_oracle c w) as Hc.
  destruct (platform_call Raylib.impl c w) as [v w1]. cbn [snd] in Hc.
  specialize (IH w1).
  destruct (platform_calls Raylib.impl rest w1) as [vs w2]. cbn [snd] in *.
  congruence.
Qed.

End MainFacts.

(** X7.  In a build with a backend macro [main] has one exit status, 0:
    whenever it returns it has printed the backend line and the closing line
    and nothing else, and [current_backend] holds the constant of the build.
    This is so on every platform implementation, also one whose start-up
    failed: [graphics_init] returns nothing and [main] tests nothing. *)
Theorem main_exit_status :
  forall (P : Platform.Impl) (m : Build.Macros) (fuel : nat) (p : Main.Process P)
         (status : Z) (q : Main.Process P),
    Build.GRAPHICS_BACKEND_RAYLIB m || Build.GRAPHICS_BACKEND_SDL3 m = true ->
    Main.main P m fuel p = Some (status, q) ->
    status = 0%Z
    /\ Main.stdout q = (Main.stdout p ++ [Main.banner m; "Game closed successfully\n"])%list
    /\ Graphics.current_backend (Main.gfx q) = Main.backend_constant m.
Proof.
  intros P m fuel p status q Hm Hrun.
  unfold Main.main, Main.banner, Main.backend_constant in *.
  destruct (Build.GRAPHICS_BACKEND_RAYLIB m) eqn:Hr;
    [| destruct (Build.GRAPHICS_BACKEND_SDL3 m) eqn:Hs; [| discriminate Hm]].
  - destruct (Main.main_loop P fuel _) as [s|] eqn:Hloop; [| discriminate Hrun].
    apply main_loop_keeps_backend in Hloop.
    injection Hrun as <- <-. repeat split.
    + cbn. rewrite <- app_assoc. reflexivity.
    + cbn. rewrite Hloop. reflexivity.
  - destruct (Main.main_loop P fuel _) as [s|] eqn:Hloop; [| discriminate Hrun].
    apply main_loop_keeps_backend in Hloop.
    injection Hrun as <- <-. repeat split.
    + cbn. rewrite <- app_assoc. reflexivity.
    + cbn. rewrite Hloop. reflexivity.
Qed.

(** The SDL3 build of main.c when [SDL_Init] fails and a quit event
    arrives: the exit status is 0 all the same. *)
Lemma main_exit_status_witness :
  option_map fst
    (Main.main SDL3.impl (Build.mkMacros false true) 1
       (@Main.mkProcess SDL3.impl []
          (Graphics.initial_state SDL3.impl (SDL3.arrive [SDL3.SDL_EVENT_QUIT] Cases.no_init))))
  = Some 0%Z.
Proof.
  destruct (Main.main SDL3.impl (Build.mkMacros false true) 1
              (@Main.mkProcess SDL3.impl []
                 (Graphics.initial_state SDL3.impl
                    (SDL3.arrive [SDL3.SDL_EVENT_QUIT] Cases.no_init))))
    as [[status q]|] eqn:Hrun.
  - destruct (main_exit_status SDL3.impl (Build.mkMacros false true) 1 _ status q
                eq_refl Hrun) as [Hstatus _].
    rewrite Hstatus. reflexivity.
  - vm_compute in Hrun. discriminate Hrun.
Defined.

(** X8.  Over the web stubs, where [WindowShouldClose] returns 0 whatever
    happened, the Raylib backend never reports the window as closing, and
    [main] never leaves its loop: no number of iterations is enough for it to
    return. *)
Theorem main_never_returns_on_web_stubs :
  forall (m : Build.Macros) (fuel : nat) (p : Main.Process Raylib.impl),
    Build.GRAPHICS_BACKEND_RAYLIB m || Build.GRAPHICS_BACKEND_SDL3 m = true ->
    Raylib.window_should_close (Graphics.platform_world (Main.gfx p))
    = WebStubs.WindowShouldClose ->
    Main.main Raylib.impl m fuel p = None
    /\ (forall cs : list Graphics.PlatformCall,
           fst (Raylib.platform_graphics_should_close
                  (snd (Graphics.platform_calls Raylib.impl cs
                          (Graphics.platform_world (Main.gfx p))))) = false).
Proof.
  intros m fuel p Hm Hstub.
  assert (Hnever : forall cs : list Graphics.PlatformCall,
    fst (Raylib.platform_graphics_should_close
           (snd (Graphics.platform_calls Raylib.impl cs
                   (Graphics.platform_world (Main.gfx p))))) = false).
  { intros cs. unfold Raylib.platform_graphics_should_close. cbn [fst].
    rewrite raylib_calls_keep_oracle, Hstub. reflexivity. }
  split; [| exact Hnever].
  assert (Hloop : forall title b,
    Main.main_loop Raylib.impl fuel
      (Graphics.graphics_init Raylib.impl 800 450 title b (Main.gfx p)) = None).
  { intros title b. apply (main_loop_running Raylib.impl fuel); [lia |].
    intros k _. unfold Main.closing_after.
    unfold Graphics.graphics_init, Graphics.on_platform, Graphics.set_current_backend.
    cbn [Graphics.platform_world].
    change (Platform.platform_graphics_should_close Raylib.impl)
      with Raylib.platform_graphics_should_close.
    change (Platform.platform_graphics_init Raylib.impl 800 450 title
              (Graphics.platform_world (Main.gfx p)))
      with (snd (Graphics.platform_calls Raylib.impl [Graphics.PInit 800 450 title]
                   (Graphics.platform_world (Main.gfx p)))).
    rewrite <- platform_calls_app. apply Hnever. }
  unfold Main.main.
  destruct (Build.GRAPHICS_BACKEND_RAYLIB m) eqn:Hr;
    [| destruct (Build.GRAPHICS_BACKEND_SDL3 m) eqn:Hs; [| discriminate Hm]];
    cbn [Main.gfx Main.printf Main.with_gfx]; rewrite Hloop; reflexivity.
Qed.

(** The Raylib build started on the stubs, given a hundred iterations. *)
Lemma main_never_returns_on_web_stubs_witness :
  Main.main Raylib.impl (Build.mkMacros true false) 100
    (@Main.mkProcess Raylib.impl [] (Graphics.initial_state Raylib.impl WebStubs.world))
  = None.
Proof.
  apply (main_never_returns_on_web_stubs (Build.mkMacros true false) 100
           (@Main.mkProcess Raylib.impl []
              (Graphics.initial_state Raylib.impl WebStubs.world))).
  - reflexivity.
  - reflexivity.
Defined.

(** X9.  The SDL3 build of main.c when a quit event (or a key-down of
    ESCAPE) is already queued at the first test of the loop and SDL starts up
    well: [main] returns 0 without drawing a frame.  The SDL calls are the
    three of the start-up, the polls that empty the queue, and
    [SDL_DestroyRenderer], [SDL_DestroyWindow], [SDL_Quit]. *)
Theorem sdl3_main_closes_before_first_frame :
  forall (e : SDL3.Env) (queued : list SDL3.SDL_Event) (win ren : pointer)
         (fuel : nat) (out : list string),
    let title := "Infinite Runner - SDL3 Backend" in
    let opened :=
      [SDL3.Init SDL3.SDL_INIT_VIDEO true;
       SDL3.CreateWindow title 800 450 SDL3.SDL_WINDOW_RESIZABLE win;
       SDL3.CreateRenderer win NULL ren] in
    SDL3.init_answer e [] = true ->
    SDL3.create_window_answer e [SDL3.Init SDL3.SDL_INIT_VIDEO true] = win ->
    win <> NULL ->
    SDL3.create_renderer_answer e
      [SDL3.Init SDL3.SDL_INIT_VIDEO true;
       SDL3.CreateWindow title 800 450 SDL3.SDL_WINDOW_RESIZABLE win] = ren ->
    ren <> NULL ->
    List.existsb SDL3Run.closing queued = true ->
    (0 < fuel)%nat ->
    Main.main SDL3.impl (Build.mkMacros false true) fuel
      (@Main.mkProcess SDL3.impl out
         (Graphics.initial_state SDL3.impl (SDL3.initial_world e queued)))
    = Some (0%Z,
            @Main.mkProcess SDL3.impl
              (out ++ ["Running with SDL3 backend\n"; "Game closed successfully\n"])
              (@Graphics.mkState SDL3.impl GRAPHICS_SDL3
                 (SDL3.mkWorld NULL NULL true
                    (opened ++ SDL3Log.polled queued
                       ++ [SDL3.DestroyRenderer ren; SDL3.DestroyWindow win; SDL3.Quit])
                    [] e))).
Proof.
  intros e queued win ren fuel out title opened Hinit Hwin Hwin0 Hren Hren0 Hclosing Hfuel.
  subst opened title.
  destruct fuel as [|fuel]; [lia |].
  assert (Hn : is_null win = false) by (apply Z.eqb_neq; exact Hwin0).
  assert (Hr : is_null ren = false) by (apply Z.eqb_neq; exact Hren0).
  unfold Main.main. cbn [Build.GRAPHICS_BACKEND_RAYLIB Build.GRAPHICS_BACKEND_SDL3].
  cbn [Main.gfx Main.printf Main.with_gfx Main.stdout].
  unfold Graphics.graphics_init, Graphics.on_platform, Graphics.set_current_backend,
    Graphics.initial_state.
  cbn [Graphics.platform_world Graphics.current_backend].
  change (Platform.platform_graphics_init SDL3.impl) with SDL3.platform_graphics_init.
  rewrite (init_ok 800 450 "Infinite Runner - SDL3 Backend" (SDL3.initial_world e queued)
             win ren Hinit Hwin Hwin0 Hren Hren0).
  cbn [Main.main_loop]. unfold Graphics.graphics_should_close, Graphics.on_platform_ret.
  cbn [Graphics.platform_world Graphics.current_backend].
  change (Platform.platform_graphics_should_close SDL3.impl)
    with SDL3.platform_graphics_should_close.
  rewrite should_close_world.
  cbn [SDL3.should_close SDL3.events SDL3.initial_world SDL3.window SDL3.renderer
       SDL3.calls SDL3.env orb].
  rewrite Hclosing. cbn [negb].
  unfold Graphics.graphics_shutdown, Graphics.on_platform, Main.printf, Main.with_gfx.
  cbn [Graphics.platform_world Graphics.current_backend Main.stdout Main.gfx].
  change (Platform.platform_graphics_shutdown SDL3.impl) with SDL3.platform_graphics_shutdown.
  rewrite shutdown_world.
  cbn [SDL3.should_close SDL3.events SDL3.window SDL3.renderer SDL3.calls SDL3.env].
  rewrite Hn, Hr. cbn [app].
  rewrite <- ?app_assoc. cbn [app]. rewrite <- ?app_assoc. reflexivity.
Qed.

(** The run of [Scenario.sdl_world]: ESCAPE is the second queued event. *)
Lemma sdl3_main_closes_before_first_frame_witness :
  Main.main SDL3.impl (Build.mkMacros false true) 1
    (@Main.mkProcess SDL3.impl [] (Graphics.initial_state SDL3.impl Scenario.sdl_world))
  = Some (0%Z,
          @Main.mkProcess SDL3.impl
            ["Running with SDL3 backend\n"; "Game closed successfully\n"]
            (@Graphics.mkState SDL3.impl GRAPHICS_SDL3
               (SDL3.mkWorld NULL NULL true
                  [SDL3.Init SDL3.SDL_INIT_VIDEO true;
                   SDL3.CreateWindow "Infinite Runner - SDL3 Backend" 800 450
                     SDL3.SDL_WINDOW_RESIZABLE 1;
                   SDL3.CreateRenderer 1 NULL 2;
                   SDL3.PollEvent (Some (SDL3.SDL_EVENT_OTHER 1024));
                   SDL3.PollEvent (Some (SDL3.SDL_EVENT_KEY_DOWN 27));
                   SDL3.PollEvent None;
                   SDL3.DestroyRenderer 2; SDL3.DestroyWindow 1; SDL3.Quit]
                  [] Scenario.sdl_env))).
Proof.
  apply (sdl3_main_closes_before_first_frame Scenario.sdl_env
           [SDL3.SDL_EVENT_OTHER 1024; SDL3.SDL_EVENT_KEY_DOWN 27] 1 2 1 []).
  - reflexivity.
  - reflexivity.
  - discriminate.
  - reflexivity.
  - discriminate.
  - reflexivity.
  - lia.
Defined.

(** ** graphics.c: sequences of calls *)

(** X10.  After any sequence of public graphics calls, [current_backend]
    holds the [backend] argument of the last [graphics_init] of the sequence,
    and what it held before when the sequence has none. *)
Theorem current_backend_is_last_init :
  forall (P : Platform.Impl) (cs : list Graphics.GfxCall) (s : Graphics.State P),
    Graphics.current_backend (snd (Graphics.graphics_calls P cs s))
    = GraphicsLog.last_backend cs (Graphics.current_backend s).
Proof.
  intros P cs. induction cs as [|c rest IH]; intros s; [reflexivity |].
  cbn [Graphics.graphics_calls].
  pose proof (graphics_call_backend P c s) as Hc.
  destruct (Graphics.graphics_call P c s) as [v s1]. cbn [snd] in Hc.
  specialize (IH s1).
  destruct (Graphics.graphics_calls P rest s1) as [vs s2]. cbn [snd] in *.
  rewrite IH, Hc. destruct c; reflexivity.
Qed.

(** ** main.c and its revision with [NO_STDIO] *)

Section Revision.

Import Graphics.

Variable P : Platform.Impl.

Lemma rev_loop_body_raylib (m : Build.Macros) (s : State P) :
  Build.GRAPHICS_BACKEND_RAYLIB m = true ->
  MainRev.loop_body P m s = Main.loop_body P s.
Proof.
  intros Hr. unfold MainRev.loop_body, Main.loop_body. rewrite Hr. reflexivity.
Qed.

Lemma rev_main_loop_raylib (m : Build.Macros) (fuel : nat) :
  Build.GRAPHICS_BACKEND_RAYLIB m = true ->
  forall s : State P, MainRev.main_loop P m fuel s = Main.main_loop P fuel s.
Proof.
  intros Hr. induction fuel as [|fuel IH]; intros s; [reflexivity |].
  cbn [MainRev.main_loop Main.main_loop].
  destruct (graphics_should_close P s) as [c s1].
  destruct c; cbn [negb]; [reflexivity |].
  rewrite rev_loop_body_raylib by exact Hr. apply IH.
Qed.

(** The flag [NO_STDIO] does not reach the loop. *)
Lemma rev_main_graphics (m : Build.Macros) (fuel : nat) (p : Main.Process P) (quiet : bool) :
  option_map (fun r => (fst r, Main.gfx (snd r))) (MainRev.main P m quiet fuel p)
  = option_map (fun r => (fst r, Main.gfx (snd r))) (MainRev.main P m false fuel p).
Proof.
  unfold MainRev.main, MainRev.printf.
  destruct (Build.GRAPHICS_BACKEND_RAYLIB m);
    [| destruct (Build.GRAPHICS_BACKEND_SDL3 m)];
    destruct quiet; cbn [Main.gfx Main.printf Main.with_gfx Main.stdout];
    try reflexivity;
    match goal with
    | |- context [MainRev.main_loop P m fuel ?s] =>
        destruct (MainRev.main_loop P m fuel s); reflexivity
    end.
Qed.

Lemma rev_main_silent (m : Build.Macros) (fuel : nat) (p : Main.Process P)
    (status : Z) (q : Main.Process P) :
  MainRev.main P m true fuel p = Some (status, q) -> Main.stdout q = Main.stdout p.
Proof.
  unfold MainRev.main, MainRev.printf.
  destruct (Build.GRAPHICS_BACKEND_RAYLIB m);
    [| destruct (Build.GRAPHICS_BACKEND_SDL3 m)];
    cbn [Main.gfx Main.printf Main.with_gfx Main.stdout];
    try (intros H; injection H as <- <-; reflexivity);
    match goal with
    | |- context [MainRev.main_loop P m fuel ?s] =>
        destruct (MainRev.main_loop P m fuel s);
        intros H; [injection H as <- <-; reflexivity | discriminate H]
    end.
Qed.

End Revision.

(** X11.  The revision of [main] with [NO_STDIO] and main.c.  Compiled
    with [GRAPHICS_BACKEND_RAYLIB] and without [NO_STDIO] the two are the same
    program: same result for every amount of fuel, on every platform.
    Compiled without [GRAPHICS_BACKEND_RAYLIB] the revision's pass through the
    loop leaves out the two texts: begin-frame, clear, three rectangles,
    end-frame. *)
Theorem main_revision_against_main :
  forall (P : Platform.Impl) (m : Build.Macros),
    (Build.GRAPHICS_BACKEND_RAYLIB m = true ->
     forall (fuel : nat) (p : Main.Process P),
       MainRev.main P m false fuel p = Main.main P m fuel p)
    /\ (Build.GRAPHICS_BACKEND_RAYLIB m = false ->
        forall s : Graphics.State P,
          MainRev.loop_body P m s
          = Graphics.mkState (Graphics.current_backend s)
              (snd (Graphics.platform_calls P MainRev.frame_calls_no_text
                      (Graphics.platform_world s)))).
Proof.
  intros P m. split.
  - intros Hr fuel p. unfold MainRev.main, Main.main, MainRev.printf. rewrite Hr.
    rewrite rev_main_loop_raylib by exact Hr. reflexivity.
  - intros Hr s. unfold MainRev.loop_body. rewrite Hr. reflexivity.
Qed.

(** The Raylib build of both texts on the run of [Scenario.raylib_process],
    and a pass of the SDL3 build of the revision on an SDL3 world. *)
Lemma main_revision_against_main_witness :
  MainRev.main Raylib.impl (Build.mkMacros true false) false 3 Scenario.raylib_process
  = Main.main Raylib.impl (Build.mkMacros true false) 3 Scenario.raylib_process
  /\ MainRev.loop_body SDL3.impl (Build.mkMacros false true)
       (Graphics.initial_state SDL3.impl Scenario.sdl_world)
     = Graphics.mkState GRAPHICS_RAYLIB
         (snd (Graphics.platform_calls SDL3.impl MainRev.frame_calls_no_text
                 Scenario.sdl_world)).
Proof.
  split.
  - destruct (main_revision_against_main Raylib.impl (Build.mkMacros true false)) as [H _].
    apply H. reflexivity.
  - destruct (main_revision_against_main SDL3.impl (Build.mkMacros false true)) as [_ H].
    apply (H eq_refl (Graphics.initial_state SDL3.impl Scenario.sdl_world)).
Defined.

(** X12.  In the revision, [NO_STDIO] removes the output and nothing else:
    with it [main] returns with standard output as it found it, and with or
    without it the exit status and the graphics state are the same, in every
    build and on every platform. *)
Theorem no_stdio_only_silences :
  forall (P : Platform.Impl) (m : Build.Macros) (fuel : nat) (p : Main.Process P),
    option_map (fun r => (fst r, Main.gfx (snd r))) (MainRev.main P m true fuel p)
    = option_map (fun r => (fst r, Main.gfx (snd r))) (MainRev.main P m false fuel p)
    /\ (forall (status : Z) (q : Main.Process P),
           MainRev.main P m true fuel p = Some (status, q) ->
           Main.stdout q = Main.stdout p).
Proof.
  intros P m fuel p. split.
  - apply rev_main_graphics.
  - intros status q. apply rev_main_silent.
Qed.

(** The quiet Raylib build on the run of [Scenario.raylib_process]. *)
Lemma no_stdio_only_silences_witness :
  option_map (fun r => Main.stdout (snd r))
    (MainRev.main Raylib.impl (Build.mkMacros true false) true 3 Scenario.raylib_process)
  = Some [].
Proof.
  destruct (MainRev.main Raylib.impl (Build.mkMacros true false) true 3
              Scenario.raylib_process) as [[status q]|] eqn:Hrun.
  - destruct (no_stdio_only_silences Raylib.impl (Build.mkMacros true false) 3
                Scenario.raylib_process) as [_ H].
    cbn [option_map snd]. rewrite (H status q Hrun). reflexivity.
  - vm_compute in Hrun. discriminate Hrun.
Defined.

(** ** The WebAssembly loader *)

Section LoaderFacts.

Import WasmLoader.
Local Open Scope list_scope.

(** What a pass of [gameLoop] does to a running loader. *)
Lemma gameLoop_running (l : Loader) :
  isRunning l = true ->
  gameLoop l
  = mkLoader (canvas l) (wasmModule l) (isLoaded l) true
      (console l ++ [game_update; game_render]) (S (scheduled l)).
Proof.
  intros Hr. unfold gameLoop. rewrite Hr. cbn [negb].
  unfold requestAnimationFrame, set_scheduled, say. cbn.
  rewrite Hr, <- app_assoc. reflexivity.
Qed.

Lemma gameLoop_idle (l : Loader) : isRunning l = false -> gameLoop l = l.
Proof.
  intros Hr. unfold gameLoop. rewrite Hr. reflexivity.
Qed.

Lemma callbacks_running (n : nat) :
  forall l : Loader,
    isRunning l = true ->
    Nat.iter n gameLoop l
    = mkLoader (canvas l) (wasmModule l) (isLoaded l) true
        (console l ++ passes n) (n + scheduled l).
Proof.
  induction n as [|n IH]; intros l Hr.
  - cbn. rewrite app_nil_r. destruct l. cbn in Hr. subst. reflexivity.
  - rewrite Nat.iter_succ, IH by exact Hr. rewrite gameLoop_running by reflexivity.
    cbn. f_equal. rewrite <- app_assoc. f_equal.
    clear. induction n as [|n IHn]; [reflexivity |]. cbn. rewrite IHn. reflexivity.
Qed.

Lemma callbacks_idle (n : nat) (l : Loader) :
  isRunning l = false -> Nat.iter n gameLoop l = l.
Proof.
  intros Hr. induction n as [|n IH]; [reflexivity |].
  rewrite Nat.iter_succ, IH. apply gameLoop_idle, Hr.
Qed.

Lemma frame_running (l : Loader) :
  isRunning l = true ->
  animation_frame l
  = mkLoader (canvas l) (wasmModule l) (isLoaded l) true
      (console l ++ passes (scheduled l)) (scheduled l).
Proof.
  intros Hr. unfold animation_frame. rewrite callbacks_running by exact Hr.
  cbn. rewrite Nat.add_0_r. reflexivity.
Qed.

Lemma frame_idle (l : Loader) :
  isRunning l = false -> animation_frame l = set_scheduled 0 l.
Proof.
  intros Hr. unfold animation_frame. apply callbacks_idle. exact Hr.
Qed.

Lemma start_loaded (l : Loader) :
  isLoaded l = true ->
  start l
  = (true,
     mkLoader (canvas l) (wasmModule l) true true
       (console l ++ [game_init; game_update; game_render]) (S (scheduled l))).
Proof.
  intros Hl. unfold start. rewrite Hl. cbn [negb].
  rewrite gameLoop_running by reflexivity. cbn. rewrite Hl, <- app_assoc. reflexivity.
Qed.

(** No event but a load that ended well sets [isLoaded], and none clears it. *)
Lemma happen_isLoaded (e : Event) (l : Loader) :
  isLoaded (happen e l) = isLoaded l || loaded_by e.
Proof.
  destruct e as [path | fetched | | |]; cbn [happen loaded_by].
  - cbn. now rewrite orb_false_r.
  - destruct fetched as [reason | [|] status]; cbn;
      [now rewrite orb_false_r | now rewrite orb_true_r | now rewrite orb_false_r].
  - rewrite orb_false_r. unfold start.
    destruct (isLoaded l) eqn:Hl; cbn [negb snd]; [| exact Hl].
    rewrite gameLoop_running by reflexivity. exact Hl.
  - rewrite orb_false_r. unfold stop. cbn. destruct (wasmModule l); reflexivity.
  - rewrite orb_false_r.
    destruct (isRunning l) eqn:Hr;
      [rewrite frame_running by exact Hr | rewrite frame_idle by exact Hr]; reflexivity.
Qed.

Lemma history_isLoaded (es : list Event) :
  forall l : Loader, isLoaded (history es l) = isLoaded l || List.existsb loaded_by es.
Proof.
  unfold history.
  induction es as [|e rest IH]; intros l; cbn; [now rewrite orb_false_r |].
  rewrite IH, happen_isLoaded, orb_assoc. reflexivity.
Qed.

Lemma say_never_cleaned (c : Console) (l : Loader) :
  c <> game_cleanup -> never_cleaned l -> never_cleaned (say c l).
Proof.
  intros Hc [Hm Hn]. split; [exact Hm |]. cbn. intros Hin.
  apply List.in_app_or in Hin as [Hin | [Heq | []]]; [exact (Hn Hin) | exact (Hc Heq)].
Qed.

Lemma gameLoop_never_cleaned (l : Loader) : never_cleaned l -> never_cleaned (gameLoop l).
Proof.
  intros Hinv. unfold gameLoop. destruct (negb (isRunning l)); [exact Hinv |].
  pose proof (say_never_cleaned game_render (say game_update l)) as H.
  destruct H as [Hm Hn]; [discriminate | apply say_never_cleaned; [discriminate | exact Hinv] |].
  split; assumption.
Qed.

Lemma happen_never_cleaned (e : Event) (l : Loader) :
  never_cleaned l -> never_cleaned (happen e l).
Proof.
  intros Hinv. destruct e as [path | fetched | | |]; cbn [happen].
  - apply say_never_cleaned; [discriminate | exact Hinv].
  - destruct fetched as [reason | [|] status]; cbn [loadWasm_finish snd].
    + apply say_never_cleaned; [discriminate | exact Hinv].
    + destruct (say_never_cleaned (Log ["WASM module loaded (simulated)"]) l)
        as [Hm Hn]; [discriminate | exact Hinv |]. split; assumption.
    + apply say_never_cleaned; [discriminate | exact Hinv].
  - unfold start. destruct (negb (isLoaded l)); cbn [snd].
    + apply say_never_cleaned; [discriminate | exact Hinv].
    + apply gameLoop_never_cleaned.
      destruct (say_never_cleaned game_init l) as [Hm Hn]; [discriminate | exact Hinv |].
      split; assumption.
  - unfold stop. destruct Hinv as [Hm Hn]. cbn. rewrite Hm. split; assumption.
  - unfold animation_frame.
    assert (H0 : never_cleaned (set_scheduled 0 l)) by (destruct Hinv; split; assumption).
    generalize dependent (set_scheduled 0 l). intros l0 H0.
    induction (scheduled l) as [|n IH]; [exact H0 |].
    rewrite Nat.iter_succ. apply gameLoop_never_cleaned, IH.
Qed.

End LoaderFacts.

(** X13.  [start] of the loader works only after a load that ended well.
    Whatever happened to a fresh loader, [isLoaded] is true exactly when one
    of the finished loads had a response with [ok] set, and [start] returns
    that value; a [start] that returns false only writes "WASM module not
    loaded" to the console: nothing runs and no callback is registered. *)
Theorem loader_start_needs_a_good_load :
  forall (canvasId : string) (es : list WasmLoader.Event),
    let l := WasmLoader.history es (WasmLoader.constructor canvasId) in
    WasmLoader.isLoaded l = List.existsb WasmLoader.loaded_by es
    /\ fst (WasmLoader.start l) = List.existsb WasmLoader.loaded_by es
    /\ (List.existsb WasmLoader.loaded_by es = false ->
        snd (WasmLoader.start l)
        = WasmLoader.say (WasmLoader.Error ["WASM module not loaded"]) l).
Proof.
  intros canvasId es l.
  assert (Hl : WasmLoader.isLoaded l = List.existsb WasmLoader.loaded_by es).
  { subst l. rewrite history_isLoaded. reflexivity. }
  split; [exact Hl | split].
  - unfold WasmLoader.start. rewrite Hl.
    destruct (List.existsb WasmLoader.loaded_by es); reflexivity.
  - intros Hnone. unfold WasmLoader.start. rewrite Hl, Hnone. reflexivity.
Qed.

(** A fetch that gave a 404, then [start]. *)
Lemma loader_start_needs_a_good_load_witness :
  WasmLoader.start
    (WasmLoader.history
       [WasmLoader.LoadBegins "infinite-runner.wasm";
        WasmLoader.LoadFinishes (WasmLoader.Response false "404")]
       (WasmLoader.constructor "gameCanvas"))
  = (false,
     WasmLoader.mkLoader "gameCanvas" None false false
       [WasmLoader.Log ["Loading WASM module from:"; "infinite-runner.wasm"];
        WasmLoader.Error ["Failed to load WASM module:"; "Error: Failed to fetch WASM: 404"];
        WasmLoader.Error ["WASM module not loaded"]] 0).
Proof.
  destruct (loader_start_needs_a_good_load "gameCanvas"
              [WasmLoader.LoadBegins "infinite-runner.wasm";
               WasmLoader.LoadFinishes (WasmLoader.Response false "404")])
    as (_ & Hret & Hworld).
  rewrite (surjective_pairing (WasmLoader.start _)), Hret, (Hworld eq_refl).
  reflexivity.
Defined.

(** X14.  The loader never calls [game_cleanup].  No method assigns
    [wasmModule], so it stays [null] whatever happens to a fresh loader, and
    [stop] calls the clean-up only when it is set: the console never shows
    the clean-up line. *)
Theorem loader_never_cleans_up :
  forall (canvasId : string) (es : list WasmLoader.Event),
    WasmLoader.wasmModule (WasmLoader.history es (WasmLoader.constructor canvasId)) = None
    /\ ~ List.In WasmLoader.game_cleanup
           (WasmLoader.console (WasmLoader.history es (WasmLoader.constructor canvasId))).
Proof.
  intros canvasId es.
  assert (H : forall l, WasmLoader.never_cleaned l ->
                        WasmLoader.never_cleaned (WasmLoader.history es l)).
  { unfold WasmLoader.history. induction es as [|e rest IH]; intros l Hinv; [exact Hinv |].
    cbn. apply IH, happen_never_cleaned, Hinv. }
  apply H. split; [reflexivity | intros []].
Qed.

(** X15.  [stop] ends the game loop.  After it the frames that follow add
    nothing to the console: the callbacks that were waiting run once, find
    [isRunning] false and register nothing, so after the first frame none is
    left.  On a loader whose [wasmModule] is [null], [stop] itself writes
    nothing. *)
Theorem loader_stop_ends_the_loop :
  forall (l : WasmLoader.Loader) (n : nat),
    WasmLoader.console (WasmLoader.frames n (WasmLoader.stop l))
    = WasmLoader.console (WasmLoader.stop l)
    /\ WasmLoader.isRunning (WasmLoader.frames n (WasmLoader.stop l)) = false
    /\ WasmLoader.scheduled (WasmLoader.frames (S n) (WasmLoader.stop l)) = 0%nat
    /\ (WasmLoader.wasmModule l = None ->
        WasmLoader.console (WasmLoader.stop l) = WasmLoader.console l).
Proof.
  intros l n.
  assert (Hidle : WasmLoader.isRunning (WasmLoader.stop l) = false).
  { unfold WasmLoader.stop. cbn. destruct (WasmLoader.wasmModule l); reflexivity. }
  assert (Hframes : forall k l0,
    WasmLoader.isRunning l0 = false ->
    WasmLoader.console (WasmLoader.frames k l0) = WasmLoader.console l0
    /\ WasmLoader.isRunning (WasmLoader.frames k l0) = false
    /\ WasmLoader.scheduled (WasmLoader.frames (S k) l0) = 0%nat).
  { intros k. unfold WasmLoader.frames.
    induction k as [|k IH]; intros l0 Hr.
    - cbn. rewrite frame_idle by exact Hr.
      split; [reflexivity | split; [exact Hr | reflexivity]].
    - destruct (IH l0 Hr) as (Hc & Hi & _).
      assert (Hstep : Nat.iter (S k) WasmLoader.animation_frame l0
                      = WasmLoader.set_scheduled 0 (Nat.iter k WasmLoader.animation_frame l0))
        by (rewrite Nat.iter_succ; apply frame_idle, Hi).
      rewrite (Nat.iter_succ (S k)), Hstep.
      rewrite (frame_idle (WasmLoader.set_scheduled 0 _)) by exact Hi.
      cbn. split; [exact Hc | split; [exact Hi | reflexivity]]. }
  destruct (Hframes n (WasmLoader.stop l) Hidle) as (Hc & Hi & Hs).
  split; [exact Hc | split; [exact Hi | split; [exact Hs |]]].
  intros Hm. unfold WasmLoader.stop. cbn. rewrite Hm. reflexivity.
Qed.

(** A loader that was loaded, started and stopped, three frames later. *)
Lemma loader_stop_ends_the_loop_witness :
  WasmLoader.console
    (WasmLoader.frames 3
       (WasmLoader.stop
          (WasmLoader.history
             [WasmLoader.LoadFinishes (WasmLoader.Response true "200"); WasmLoader.Start]
             (WasmLoader.constructor "gameCanvas"))))
  = [WasmLoader.Log ["WASM module loaded (simulated)"];
     WasmLoader.game_init; WasmLoader.game_update; WasmLoader.game_render].
Proof.
  destruct (loader_stop_ends_the_loop
              (WasmLoader.history
                 [WasmLoader.LoadFinishes (WasmLoader.Response true "200"); WasmLoader.Start]
                 (WasmLoader.constructor "gameCanvas")) 3) as (Hc & _ & _ & Hs).
  rewrite Hc, (Hs eq_refl). reflexivity.
Defined.

(** X16.  [start] does not test whether the loop is already running.  On
    a loaded loader every [start] registers one more callback, and on a
    running loader a frame makes one pass ([game_update], then [game_render])
    for each callback that was waiting and registers as many again: after [k]
    calls of [start] each frame makes [k] passes more than before. *)
Theorem loader_starts_add_up :
  forall (l : WasmLoader.Loader) (k : nat),
    WasmLoader.isLoaded l = true ->
    let l' := Nat.iter k (fun x => snd (WasmLoader.start x)) l in
    WasmLoader.scheduled l' = (k + WasmLoader.scheduled l)%nat
    /\ ((0 < k)%nat ->
        WasmLoader.isRunning l' = true
        /\ WasmLoader.console (WasmLoader.animation_frame l')
           = (WasmLoader.console l'
                ++ WasmLoader.passes (k + WasmLoader.scheduled l))%list
        /\ WasmLoader.scheduled (WasmLoader.animation_frame l')
           = (k + WasmLoader.scheduled l)%nat).
Proof.
  intros l k Hl l'.
  assert (Hk : WasmLoader.isLoaded l' = true
               /\ WasmLoader.scheduled l' = (k + WasmLoader.scheduled l)%nat
               /\ ((0 < k)%nat -> WasmLoader.isRunning l' = true)).
  { subst l'. induction k as [|k IH].
    - cbn. split; [exact Hl | split; [reflexivity | lia]].
    - destruct IH as (Hl' & Hs & _).
      rewrite Nat.iter_succ, (start_loaded _ Hl'). cbn [snd].
      cbn. rewrite Hs. split; [reflexivity | split; [reflexivity | intros _; reflexivity]]. }
  destruct Hk as (Hl' & Hs & Hr).
  split; [exact Hs |].
  intros Hpos. specialize (Hr Hpos).
  rewrite (frame_running l' Hr). cbn. rewrite Hs.
  split; [exact Hr | split; reflexivity].
Qed.

(** A loaded loader on which [start] is called twice: the frame that
    follows makes two passes. *)
Lemma loader_starts_add_up_witness :
  WasmLoader.console
    (WasmLoader.history
       [WasmLoader.LoadFinishes (WasmLoader.Response true "200");
        WasmLoader.Start; WasmLoader.Start; WasmLoader.Frame]
       (WasmLoader.constructor "gameCanvas"))
  = (WasmLoader.console
       (WasmLoader.history
          [WasmLoader.LoadFinishes (WasmLoader.Response true "200");
           WasmLoader.Start; WasmLoader.Start]
          (WasmLoader.constructor "gameCanvas"))
       ++ WasmLoader.passes 2)%list.
Proof.
  destruct (loader_starts_add_up
              (WasmLoader.history [WasmLoader.LoadFinishes (WasmLoader.Response true "200")]
                 (WasmLoader.constructor "gameCanvas")) 2 eq_refl) as (_ & H).
  destruct (H ltac:(lia)) as (_ & Hc & _).
  exact Hc.
Defined.
